(** * namenode_exporter: the collection cycle of [namenode_exporter.go]

    A shallow embedding of the exporter's [Describe] and [Collect] methods
    and of the data they work on: the decoded JMX envelope (a list of
    untyped beans), the metric descriptors built by [NewExporter], and the
    samples sent on the collector's channel.

    Conventions.
    - A Go [float64] is a primitive binary64 float; the program only moves
      such values around, it never computes with them.
    - [interface{}] values are the dynamic values [encoding/json] stores in
      an empty interface.
    - A method that sends on a channel and may panic is a computation in
      the monad [run T], which records the values sent so far, in order,
      and whether the body returned or panicked.
    - [log.Errorf] lines are not part of the model. *)

From Stdlib Require Import ZArith String Ascii.
From Stdlib.Floats Require Import PrimFloat.
From stdpp Require Import base option list strings gmap fin_maps.

Set Warnings "-register-all".
Local Open Scope Z_scope.
Local Open Scope string_scope.
Local Open Scope list_scope.

(** ** Go values *)

Definition float64 : Set := float.

(** The dynamic values of [interface{}] after [encoding/json] decoding:
    nil, bool, float64, string, []interface{}, map[string]interface{}. *)
Inductive value : Type :=
| VNil
| VBool (b : bool)
| VFloat (f : float64)
| VString (s : string)
| VArray (l : list value)
| VObject (m : gmap string value).

(** [type jmxBean map[string]interface{}] *)
Abbreviation jmxBean := (gmap string value).

(** [type jmxEnvelope struct { Beans []jmxBean `json:"beans"` }] *)
Record jmxEnvelope : Type := { Beans : list jmxBean }.

(** Map indexing [m[k]]: the zero value of the element type, a nil
    interface, when the key is absent (also on a nil map). *)
Definition index (m : jmxBean) (k : string) : value :=
  default VNil (m !! k).

(** [v == "lit"] for an interface value against a string constant: true
    exactly when the dynamic type is string and the contents agree. *)
Definition ifaceEqString (v : value) (lit : string) : bool :=
  match v with
  | VString s => String.eqb s lit
  | _ => false
  end.

(** ** Channel sends and panics *)

Inductive outcome (A : Type) : Type :=
| Returned (a : A)
| Panicked.
Arguments Returned {A} a.
Arguments Panicked {A}.

Record run (T A : Type) : Type := Run { sent : list T; result : outcome A }.
Arguments Run {T A} sent result.
Arguments sent {T A} r.
Arguments result {T A} r.

Definition ret {T A : Type} (a : A) : run T A := Run [] (Returned a).

Definition panic {T A : Type} : run T A := Run [] Panicked.

Definition bind {T A B : Type} (m : run T A) (k : A → run T B) : run T B :=
  match result m with
  | Returned a => let r := k a in Run (sent m ++ sent r) (result r)
  | Panicked => Run (sent m) Panicked
  end.

(** [ch <- x] *)
Definition send {T : Type} (x : T) : run T unit := Run [x] (Returned tt).

Global Instance run_ret {T : Type} : MRet (run T) := λ A a, ret a.
Global Instance run_bind {T : Type} : MBind (run T) := λ A B k m, bind m k.

(** [for _, x := range xs { body }] *)
Fixpoint forRange {T X : Type} (xs : list X) (body : X → run T unit) : run T unit :=
  match xs with
  | [] => ret tt
  | x :: rest => body x ;; forRange rest body
  end.

(** Whether the body ran to its end. *)
Definition returns {T A : Type} (m : run T A) : Prop :=
  ∃ a, result m = Returned a.

(** Type assertion [v.(float64)], single-value form: panics unless the
    dynamic type is float64. *)
Definition assertFloat64 {T : Type} (v : value) : run T float64 :=
  match v with
  | VFloat f => ret f
  | _ => panic
  end.

(** ** Metric descriptors and samples (client library boundary) *)

Inductive ValueType : Set := CounterValue | GaugeValue | UntypedValue.

Record Desc : Type := {
  fqName : string;
  help : string;
  variableLabels : list string;
  constLabels : list (string * string)
}.

(** [prometheus.BuildFQName] *)
Definition BuildFQName (namespace subsystem name : string) : string :=
  if String.eqb name "" then ""
  else if negb (String.eqb namespace "") && negb (String.eqb subsystem "")
       then namespace ++ "_" ++ subsystem ++ "_" ++ name
  else if negb (String.eqb namespace "") then namespace ++ "_" ++ name
  else if negb (String.eqb subsystem "") then subsystem ++ "_" ++ name
  else name.

(** [prometheus.NewDesc]; a nil slice or map is the empty list. The
    validation of names and help, which no descriptor of [NewExporter]
    fails, is left out. *)
Definition NewDesc (fqName help : string) (variableLabels : list string)
    (constLabels : list (string * string)) : Desc :=
  {| fqName := fqName; help := help;
     variableLabels := variableLabels; constLabels := constLabels |}.

(** A constant metric: the sample handed to the registry. *)
Record Metric : Type := {
  desc : Desc;
  valType : ValueType;
  val : float64;
  labelValues : list string
}.

(** [prometheus.MustNewConstMetric]: panics when the number of label
    values differs from the number of variable labels of the descriptor. *)
Definition MustNewConstMetric {T : Type} (d : Desc) (valueType : ValueType)
    (v : float64) (lvs : list string) : run T Metric :=
  if (length (variableLabels d) =? length lvs)%nat
  then ret {| desc := d; valType := valueType; val := v; labelValues := lvs |}
  else panic.

(** [mustNewConstBoolMetric]: [fval] starts at zero and becomes 1 when
    [value] holds. *)
Definition mustNewConstBoolMetric {T : Type} (d : Desc) (valueType : ValueType)
    (b : bool) (lvs : list string) : run T Metric :=
  let fval : float64 := if b then 1%float else 0%float in
  MustNewConstMetric d valueType fval lvs.

(** ** The exporter *)

Definition namespace : string := "namenode".

(** [http.Client], of which only the timeout (a [time.Duration], in
    nanoseconds) is set. *)
Record Client : Type := { Timeout : Z }.

(** [type Exporter struct] *)
Record Exporter : Type := {
  url : string;
  httpClient : Client;
  (* namenode server health metrics *)
  up : Desc;
  uptime : Desc;
  state : Desc;
  fsOperational : Desc;
  safemodeOn : Desc;
  dataNodesLive : Desc;
  dataNodesDead : Desc;
  (* dfs capacity metrics *)
  dfsFilesTotal : Desc;
  dfsPercentUsed : Desc;
  dfsPercentRemaining : Desc;
  dfsCapacityBytesTotal : Desc;
  dfsCapacityBytesUsed : Desc;
  dfsCapacityBytesRemaining : Desc;
  dfsNonDfsBytesUsed : Desc;
  (* dfs block metrics *)
  dfsBlocksTotal : Desc;
  dfsBlocksUnderReplicated : Desc;
  dfsBlocksPendingReplication : Desc;
  dfsBlocksScheduledReplication : Desc;
  dfsBlocksPostponedMisreplicated : Desc;
  dfsBlocksPendingDeletion : Desc;
  dfsBlocksMissing : Desc;
  dfsBlocksCorrupt : Desc;
  dfsBlocksExcess : Desc;
  dfsBlockPoolBytesUsed : Desc;
  dfsBlockPoolPercentUsed : Desc;
  (* namenode jvm metrics *)
  jvmLogFatal : Desc;
  jvmLogError : Desc;
  jvmLogWarn : Desc;
  jvmLogInfo : Desc;
  jvmMemHeapMegabytesUsed : Desc;
  jvmMemHeapMegabytesCommitted : Desc;
  jvmMemNonHeapMegabytesUsed : Desc;
  jvmMemNonHeapMegabytesCommitted : Desc;
  jvmThreadsNew : Desc;
  jvmThreadsRunnable : Desc;
  jvmThreadsBlocked : Desc;
  jvmThreadsWaiting : Desc;
  jvmThreadsTimedWaiting : Desc;
  jvmThreadsTerminated : Desc
}.

(** [NewExporter] *)
Definition NewExporter (url : string) (timeout : Z) : Exporter := {|
  url := url;
  httpClient := {| Timeout := timeout |};
  (* namenode server health metrics *)
  up := NewDesc (BuildFQName namespace "" "up")
    "Could the namenode be reached." [] [];
  uptime := NewDesc (BuildFQName namespace "" "uptime_seconds")
    "Number of seconds since the namenode started." [] [];
  state := NewDesc (BuildFQName namespace "" "state")
    "Indicate namenode state (0 - standby, 1 - active)." [] [];
  fsOperational := NewDesc (BuildFQName namespace "" "fs_operational")
    "The filesystem state of this namenode." [] [];
  safemodeOn := NewDesc (BuildFQName namespace "" "safemode_on")
    "The safemode state of this namenode." [] [];
  dataNodesLive := NewDesc (BuildFQName namespace "" "data_nodes_live")
    "The number of live datanodes in this DFS." [] [];
  dataNodesDead := NewDesc (BuildFQName namespace "" "data_nodes_dead")
    "The number of dead datanodes in this DFS." [] [];
  (* dfs capacity metrics *)
  dfsFilesTotal := NewDesc (BuildFQName namespace "dfs" "files_total")
    "Total number of files in DFS." [] [];
  dfsPercentUsed := NewDesc (BuildFQName namespace "dfs" "percent_used")
    "TODO(fahlke): describe this metric" [] [];
  dfsPercentRemaining := NewDesc (BuildFQName namespace "dfs" "percent_remaining")
    "TODO(fahlke): describe this metric" [] [];
  dfsCapacityBytesTotal := NewDesc (BuildFQName namespace "dfs" "capacity_bytes_total")
    "Total configured DFS storage capacity in bytes." [] [];
  dfsCapacityBytesUsed := NewDesc (BuildFQName namespace "dfs" "capacity_bytes_used")
    "The usage of the DFS in bytes." [] [];
  dfsCapacityBytesRemaining := NewDesc (BuildFQName namespace "dfs" "capacity_bytes_remaining")
    "The remaining capacity of the DFS in bytes." [] [];
  dfsNonDfsBytesUsed := NewDesc (BuildFQName namespace "dfs" "non_dfs_bytes_used")
    "Non-DFS usage in bytes." [] [];
  (* dfs block metrics *)
  dfsBlocksTotal := NewDesc (BuildFQName namespace "dfs" "blocks_total")
    "Total blocks in DFS." [] [];
  dfsBlocksUnderReplicated := NewDesc (BuildFQName namespace "dfs" "blocks_under_replicated")
    "Under replicated blocks in DFS." [] [];
  dfsBlocksPendingReplication := NewDesc (BuildFQName namespace "dfs" "blocks_pending_replication")
    "TODO(fahlke): describe this metric" [] [];
  dfsBlocksScheduledReplication := NewDesc (BuildFQName namespace "dfs" "blocks_scheduled_replication")
    "TODO(fahlke): describe this metric" [] [];
  dfsBlocksPostponedMisreplicated := NewDesc (BuildFQName namespace "dfs" "blocks_postponed_misreplicated")
    "TODO(fahlke): describe this metric" [] [];
  dfsBlocksPendingDeletion := NewDesc (BuildFQName namespace "dfs" "blocks_pending_deletion")
    "TODO(fahlke): describe this metric" [] [];
  dfsBlocksMissing := NewDesc (BuildFQName namespace "dfs" "blocks_missing")
    "Missing blocks in DFS." [] [];
  dfsBlocksCorrupt := NewDesc (BuildFQName namespace "dfs" "blocks_corrupt")
    "Corrupted blocks in DFS." [] [];
  dfsBlocksExcess := NewDesc (BuildFQName namespace "dfs" "blocks_excess")
    "Excess blocks in DFS." [] [];
  dfsBlockPoolBytesUsed := NewDesc (BuildFQName namespace "dfs" "block_pool_bytes_used")
    "TODO(fahlke): describe this metric" [] [];
  dfsBlockPoolPercentUsed := NewDesc (BuildFQName namespace "dfs" "block_pool_percent_used")
    "TODO(fahlke): describe this metric" [] [];
  (* namenode jvm metrics *)
  jvmLogFatal := NewDesc (BuildFQName namespace "jvm" "log_fatal")
    "TODO(fahlke): describe this metric" [] [];
  jvmLogError := NewDesc (BuildFQName namespace "jvm" "log_error")
    "TODO(fahlke): describe this metric" [] [];
  jvmLogWarn := NewDesc (BuildFQName namespace "jvm" "log_warn")
    "TODO(fahlke): describe this metric" [] [];
  jvmLogInfo := NewDesc (BuildFQName namespace "jvm" "log_info")
    "TODO(fahlke): describe this metric" [] [];
  jvmMemHeapMegabytesUsed := NewDesc (BuildFQName namespace "jvm" "mem_heap_megabytes_used")
    "TODO(fahlke): describe this metric" [] [];
  jvmMemHeapMegabytesCommitted := NewDesc (BuildFQName namespace "jvm" "mem_heap_megabytes_committed")
    "TODO(fahlke): describe this metric" [] [];
  jvmMemNonHeapMegabytesUsed := NewDesc (BuildFQName namespace "jvm" "mem_non_heap_megabytes_used")
    "TODO(fahlke): describe this metric" [] [];
  jvmMemNonHeapMegabytesCommitted := NewDesc (BuildFQName namespace "jvm" "mem_non_heap_megabytes_committed")
    "TODO(fahlke): describe this metric" [] [];
  jvmThreadsNew := NewDesc (BuildFQName namespace "jvm" "threads_new")
    "TODO(fahlke): describe this metric" [] [];
  jvmThreadsRunnable := NewDesc (BuildFQName namespace "jvm" "threads_runnable")
    "TODO(fahlke): describe this metric" [] [];
  jvmThreadsBlocked := NewDesc (BuildFQName namespace "jvm" "threads_blocked")
    "TODO(fahlke): describe this metric" [] [];
  jvmThreadsWaiting := NewDesc (BuildFQName namespace "jvm" "threads_waiting")
    "TODO(fahlke): describe this metric" [] [];
  jvmThreadsTimedWaiting := NewDesc (BuildFQName namespace "jvm" "threads_timed_waiting")
    "TODO(fahlke): describe this metric" [] [];
  jvmThreadsTerminated := NewDesc (BuildFQName namespace "jvm" "threads_terminated")
    "TODO(fahlke): describe this metric" [] []
|}.

(** [Describe]: sends every descriptor on the channel. *)
Definition Describe (e : Exporter) : run Desc unit :=
  send (up e) ;;
  send (uptime e) ;;
  send (state e) ;;
  send (fsOperational e) ;;
  send (safemodeOn e) ;;
  send (dataNodesLive e) ;;
  send (dataNodesDead e) ;;
  send (dfsFilesTotal e) ;;
  send (dfsPercentUsed e) ;;
  send (dfsPercentRemaining e) ;;
  send (dfsCapacityBytesTotal e) ;;
  send (dfsCapacityBytesUsed e) ;;
  send (dfsCapacityBytesRemaining e) ;;
  send (dfsNonDfsBytesUsed e) ;;
  send (dfsBlocksTotal e) ;;
  send (dfsBlocksUnderReplicated e) ;;
  send (dfsBlocksPendingReplication e) ;;
  send (dfsBlocksScheduledReplication e) ;;
  send (dfsBlocksPostponedMisreplicated e) ;;
  send (dfsBlocksPendingDeletion e) ;;
  send (dfsBlocksMissing e) ;;
  send (dfsBlocksCorrupt e) ;;
  send (dfsBlocksExcess e) ;;
  send (dfsBlockPoolBytesUsed e) ;;
  send (dfsBlockPoolPercentUsed e) ;;
  send (jvmLogFatal e) ;;
  send (jvmLogError e) ;;
  send (jvmLogWarn e) ;;
  send (jvmLogInfo e) ;;
  send (jvmMemHeapMegabytesUsed e) ;;
  send (jvmMemHeapMegabytesCommitted e) ;;
  send (jvmMemNonHeapMegabytesUsed e) ;;
  send (jvmMemNonHeapMegabytesCommitted e) ;;
  send (jvmThreadsNew e) ;;
  send (jvmThreadsRunnable e) ;;
  send (jvmThreadsBlocked e) ;;
  send (jvmThreadsWaiting e) ;;
  send (jvmThreadsTimedWaiting e) ;;
  send (jvmThreadsTerminated e).

(** ** The JMX document and its decoding *)

(** The JSON value the decoder's scanner reads off the response body.
    Object members are kept in document order, duplicates included;
    numbers are already converted to float64. *)
Inductive json : Type :=
| JNull
| JBool (b : bool)
| JNumber (f : float64)
| JString (s : string)
| JArray (elems : list json)
| JObject (members : list (string * json)).

(** What [encoding/json] stores in an [interface{}]: for an object a
    fresh map filled member by member, so a later duplicate key
    overwrites an earlier one. *)
Fixpoint valueInterface (j : json) : value :=
  match j with
  | JNull => VNil
  | JBool b => VBool b
  | JNumber f => VFloat f
  | JString s => VString s
  | JArray elems => VArray (map valueInterface elems)
  | JObject members =>
      VObject ((fix store (ms : list (string * json)) (m : gmap string value) :=
                  match ms with
                  | [] => m
                  | (k, v) :: rest => store rest (<[k := valueInterface v]> m)
                  end) members ∅)
  end.

Definition objectInterface (members : list (string * json)) : gmap string value :=
  match valueInterface (JObject members) with
  | VObject m => m
  | _ => ∅
  end.

(** [b & caseMask] with [caseMask = ^byte(0x20)] *)
Definition caseMask (b : ascii) : N := N.land (N_of_ascii b) 0xDF.

(** [encoding/json]'s [equalFoldRight], the folding used for a field name
    that has an 's' or a 'k' in it: ASCII letters match without regard
    to case, and 's' also matches U+017F (bytes C5 BF), 'k' also U+212A
    (bytes E2 84 AA). [s] is the field name, [t] the key of the
    document. *)
Fixpoint equalFoldRight (s t : string) : bool :=
  match s with
  | EmptyString => match t with EmptyString => true | _ => false end
  | String sb s' =>
      match t with
      | EmptyString => false
      | String tb t' =>
          if (N_of_ascii tb <? 0x80)%N then
            if Ascii.eqb sb tb then equalFoldRight s' t'
            else if (0x41 <=? caseMask sb)%N && (caseMask sb <=? 0x5A)%N
                    && (caseMask sb =? caseMask tb)%N
                 then equalFoldRight s' t'
                 else false
          else if (caseMask sb =? 0x53)%N then
            match t' with
            | String t1 t'' =>
                if (N_of_ascii tb =? 0xC5)%N && (N_of_ascii t1 =? 0xBF)%N
                then equalFoldRight s' t'' else false
            | EmptyString => false
            end
          else if (caseMask sb =? 0x4B)%N then
            match t' with
            | String t1 (String t2 t'') =>
                if (N_of_ascii tb =? 0xE2)%N && (N_of_ascii t1 =? 0x84)%N
                   && (N_of_ascii t2 =? 0xAA)%N
                then equalFoldRight s' t'' else false
            | _ => false
            end
          else false
      end
  end.

(** A key of the document selects a struct field when it is the field's
    name, exactly or up to case folding. *)
Definition fieldMatches (name key : string) : bool :=
  String.eqb key name || equalFoldRight name key.

(** Decoding into a [jmxBean]: [null] leaves the nil map, an object
    fills a map, anything else is an [UnmarshalTypeError]. *)
Definition unmarshalBean (j : json) : option jmxBean :=
  match j with
  | JNull => Some ∅
  | JObject members => Some (objectInterface members)
  | _ => None
  end.

(** Decoding into the [Beans] slice: [null] gives the nil slice, an
    array is decoded element by element, anything else is an
    [UnmarshalTypeError]. *)
Definition unmarshalBeans (j : json) : option (list jmxBean) :=
  match j with
  | JNull => Some []
  | JArray elems => mapM unmarshalBean elems
  | _ => None
  end.

(** Decoding the members of the top-level object into the struct: a
    member whose key selects [Beans] is decoded into it, any other
    member is skipped. When several members select [Beans] the slice is
    reset and filled anew each time, as the package documents for
    slices, so the last one stands. An [UnmarshalTypeError] does not
    stop the decoder but is returned at the end; as [Collect] drops the
    envelope on any error, the first one ends the model's decoding. *)
Fixpoint unmarshalMembers (members : list (string * json))
    (envelope : jmxEnvelope) : option jmxEnvelope :=
  match members with
  | [] => Some envelope
  | (key, v) :: rest =>
      if fieldMatches "beans" key
      then beans ← unmarshalBeans v; unmarshalMembers rest {| Beans := beans |}
      else unmarshalMembers rest envelope
  end.

(** [dec.Decode(&envelope)] on a zero-valued envelope. [None] is a
    non-nil error: the body holds no complete JSON value (syntax error,
    premature end, a number outside float64), or a value does not fit
    its Go type. A top-level [null] decodes without error and leaves
    the envelope untouched. *)
Definition Decode (body : option json) : option jmxEnvelope :=
  j ← body;
  match j with
  | JNull => Some {| Beans := [] |}
  | JObject members => unmarshalMembers members {| Beans := [] |}
  | _ => None
  end.

(** ** The collection cycle *)

(** [http.Response], as far as [Collect] reads it. *)
Record Response : Type := { StatusCode : Z; Body : option json }.

(** The two results of [e.httpClient.Get(e.url)]. *)
Inductive getResult : Type :=
| GetError (err : string)
| GetOk (resp : Response).

Definition StatusOK : Z := 200.

(** The body of the range loop of [Collect]: the switch on the bean's
    [name]. The cases are tried in order; there is no default case. *)
Definition collectBean (e : Exporter) (nameDataMap : jmxBean) : run Metric unit :=
  if ifaceEqString (index nameDataMap "name") "java.lang:type=Runtime" then
    (f ← assertFloat64 (index nameDataMap "Uptime");
     MustNewConstMetric (uptime e) GaugeValue f [] ≫= send)
  else if ifaceEqString (index nameDataMap "name") "Hadoop:service=NameNode,name=NameNodeStatus" then
    (mustNewConstBoolMetric (state e) GaugeValue
       (ifaceEqString (index nameDataMap "State") "active") [] ≫= send)
  else if ifaceEqString (index nameDataMap "name") "Hadoop:service=NameNode,name=FSNamesystem" then
    (f ← assertFloat64 (index nameDataMap "BlocksTotal");
     MustNewConstMetric (dfsBlocksTotal e) GaugeValue f [] ≫= send) ;;
    (f ← assertFloat64 (index nameDataMap "UnderReplicatedBlocks");
     MustNewConstMetric (dfsBlocksUnderReplicated e) GaugeValue f [] ≫= send) ;;
    (f ← assertFloat64 (index nameDataMap "PendingReplicationBlocks");
     MustNewConstMetric (dfsBlocksPendingReplication e) GaugeValue f [] ≫= send) ;;
    (f ← assertFloat64 (index nameDataMap "ScheduledReplicationBlocks");
     MustNewConstMetric (dfsBlocksScheduledReplication e) GaugeValue f [] ≫= send) ;;
    (f ← assertFloat64 (index nameDataMap "PostponedMisreplicatedBlocks");
     MustNewConstMetric (dfsBlocksPostponedMisreplicated e) GaugeValue f [] ≫= send) ;;
    (f ← assertFloat64 (index nameDataMap "PendingDeletionBlocks");
     MustNewConstMetric (dfsBlocksPendingDeletion e) GaugeValue f [] ≫= send) ;;
    (f ← assertFloat64 (index nameDataMap "MissingBlocks");
     MustNewConstMetric (dfsBlocksMissing e) GaugeValue f [] ≫= send) ;;
    (f ← assertFloat64 (index nameDataMap "CorruptBlocks");
     MustNewConstMetric (dfsBlocksCorrupt e) GaugeValue f [] ≫= send) ;;
    (f ← assertFloat64 (index nameDataMap "ExcessBlocks");
     MustNewConstMetric (dfsBlocksExcess e) GaugeValue f [] ≫= send)
  else if ifaceEqString (index nameDataMap "name") "Hadoop:service=NameNode,name=FSNamesystemState" then
    (mustNewConstBoolMetric (fsOperational e) GaugeValue
       (ifaceEqString (index nameDataMap "FSState") "Operational") [] ≫= send) ;;
    (f ← assertFloat64 (index nameDataMap "NumLiveDataNodes");
     MustNewConstMetric (dataNodesLive e) GaugeValue f [] ≫= send) ;;
    (f ← assertFloat64 (index nameDataMap "NumDeadDataNodes");
     MustNewConstMetric (dataNodesDead e) GaugeValue f [] ≫= send) ;;
    (f ← assertFloat64 (index nameDataMap "FilesTotal");
     MustNewConstMetric (dfsFilesTotal e) GaugeValue f [] ≫= send) ;;
    (f ← assertFloat64 (index nameDataMap "CapacityTotal");
     MustNewConstMetric (dfsCapacityBytesTotal e) GaugeValue f [] ≫= send) ;;
    (f ← assertFloat64 (index nameDataMap "CapacityUsed");
     MustNewConstMetric (dfsCapacityBytesUsed e) GaugeValue f [] ≫= send) ;;
    (f ← assertFloat64 (index nameDataMap "CapacityRemaining");
     MustNewConstMetric (dfsCapacityBytesRemaining e) GaugeValue f [] ≫= send)
  else if ifaceEqString (index nameDataMap "name") "Hadoop:service=NameNode,name=NameNodeInfo" then
    (mustNewConstBoolMetric (safemodeOn e) GaugeValue
       (negb (ifaceEqString (index nameDataMap "Safemode") "")) [] ≫= send) ;;
    (f ← assertFloat64 (index nameDataMap "PercentUsed");
     MustNewConstMetric (dfsPercentUsed e) GaugeValue f [] ≫= send) ;;
    (f ← assertFloat64 (index nameDataMap "PercentRemaining");
     MustNewConstMetric (dfsPercentRemaining e) GaugeValue f [] ≫= send) ;;
    (f ← assertFloat64 (index nameDataMap "NonDfsUsedSpace");
     MustNewConstMetric (dfsNonDfsBytesUsed e) GaugeValue f [] ≫= send) ;;
    (f ← assertFloat64 (index nameDataMap "BlockPoolUsedSpace");
     MustNewConstMetric (dfsBlockPoolBytesUsed e) GaugeValue f [] ≫= send) ;;
    (f ← assertFloat64 (index nameDataMap "PercentBlockPoolUsed");
     MustNewConstMetric (dfsBlockPoolPercentUsed e) GaugeValue f [] ≫= send)
  else if ifaceEqString (index nameDataMap "name") "Hadoop:service=NameNode,name=JvmMetrics" then
    (f ← assertFloat64 (index nameDataMap "LogFatal");
     MustNewConstMetric (jvmLogFatal e) CounterValue f [] ≫= send) ;;
    (f ← assertFloat64 (index nameDataMap "LogError");
     MustNewConstMetric (jvmLogError e) CounterValue f [] ≫= send) ;;
    (f ← assertFloat64 (index nameDataMap "LogWarn");
     MustNewConstMetric (jvmLogWarn e) CounterValue f [] ≫= send) ;;
    (f ← assertFloat64 (index nameDataMap "LogInfo");
     MustNewConstMetric (jvmLogInfo e) CounterValue f [] ≫= send) ;;
    (f ← assertFloat64 (index nameDataMap "MemHeapUsedM");
     MustNewConstMetric (jvmMemHeapMegabytesUsed e) GaugeValue f [] ≫= send) ;;
    (f ← assertFloat64 (index nameDataMap "MemHeapCommittedM");
     MustNewConstMetric (jvmMemHeapMegabytesCommitted e) GaugeValue f [] ≫= send) ;;
    (f ← assertFloat64 (index nameDataMap "MemNonHeapUsedM");
     MustNewConstMetric (jvmMemNonHeapMegabytesUsed e) GaugeValue f [] ≫= send) ;;
    (f ← assertFloat64 (index nameDataMap "MemNonHeapCommittedM");
     MustNewConstMetric (jvmMemNonHeapMegabytesCommitted e) GaugeValue f [] ≫= send) ;;
    (f ← assertFloat64 (index nameDataMap "ThreadsNew");
     MustNewConstMetric (jvmThreadsNew e) GaugeValue f [] ≫= send) ;;
    (f ← assertFloat64 (index nameDataMap "ThreadsRunnable");
     MustNewConstMetric (jvmThreadsRunnable e) GaugeValue f [] ≫= send) ;;
    (f ← assertFloat64 (index nameDataMap "ThreadsBlocked");
     MustNewConstMetric (jvmThreadsBlocked e) GaugeValue f [] ≫= send) ;;
    (f ← assertFloat64 (index nameDataMap "ThreadsWaiting");
     MustNewConstMetric (jvmThreadsWaiting e) GaugeValue f [] ≫= send) ;;
    (f ← assertFloat64 (index nameDataMap "ThreadsTimedWaiting");
     MustNewConstMetric (jvmThreadsTimedWaiting e) GaugeValue f [] ≫= send) ;;
    (f ← assertFloat64 (index nameDataMap "ThreadsTerminated");
     MustNewConstMetric (jvmThreadsTerminated e) GaugeValue f [] ≫= send)
  else ret tt.

(** [Collect], given what the HTTP client answered for this cycle. *)
Definition Collect (e : Exporter) (got : getResult) : run Metric unit :=
  match got with
  | GetError err =>
      MustNewConstMetric (up e) GaugeValue 0%float [] ≫= send
  | GetOk resp =>
      if negb (StatusCode resp =? StatusOK)%Z
      then MustNewConstMetric (up e) GaugeValue 0%float [] ≫= send
      else
        match Decode (Body resp) with
        | None => MustNewConstMetric (up e) GaugeValue 0%float [] ≫= send
        | Some envelope =>
            (MustNewConstMetric (up e) GaugeValue 1%float [] ≫= send) ;;
            forRange (Beans envelope) (collectBean e)
        end
  end.

(** ** The field mapping table

    The association the switch of [Collect] spells out case by case,
    as data: for each recognized bean name, in the order of the cases,
    the fields read, in the order of the sends, each with the descriptor
    it feeds, its value type and the way its value becomes a number. *)

Inductive coercion : Type :=
| NumericPassthrough            (* [v.(float64)] *)
| EqualityBoolean (lit : string) (* [v == lit] *)
| PresenceBoolean.              (* [v != ""] *)

Record mapping : Type := {
  source : string;
  target : Exporter → Desc;
  kind : ValueType;
  rule : coercion
}.

Definition numeric (src : string) (tgt : Exporter → Desc) (k : ValueType) : mapping :=
  {| source := src; target := tgt; kind := k; rule := NumericPassthrough |}.

Definition mappingTable : list (string * list mapping) :=
  [ ("java.lang:type=Runtime",
     [ numeric "Uptime" uptime GaugeValue ]);
    ("Hadoop:service=NameNode,name=NameNodeStatus",
     [ {| source := "State"; target := state; kind := GaugeValue;
        rule := EqualityBoolean "active" |} ]);
    ("Hadoop:service=NameNode,name=FSNamesystem",
     [ numeric "BlocksTotal" dfsBlocksTotal GaugeValue;
       numeric "UnderReplicatedBlocks" dfsBlocksUnderReplicated GaugeValue;
       numeric "PendingReplicationBlocks" dfsBlocksPendingReplication GaugeValue;
       numeric "ScheduledReplicationBlocks" dfsBlocksScheduledReplication GaugeValue;
       numeric "PostponedMisreplicatedBlocks" dfsBlocksPostponedMisreplicated GaugeValue;
       numeric "PendingDeletionBlocks" dfsBlocksPendingDeletion GaugeValue;
       numeric "MissingBlocks" dfsBlocksMissing GaugeValue;
       numeric "CorruptBlocks" dfsBlocksCorrupt GaugeValue;
       numeric "ExcessBlocks" dfsBlocksExcess GaugeValue ]);
    ("Hadoop:service=NameNode,name=FSNamesystemState",
     [ {| source := "FSState"; target := fsOperational; kind := GaugeValue;
        rule := EqualityBoolean "Operational" |};
       numeric "NumLiveDataNodes" dataNodesLive GaugeValue;
       numeric "NumDeadDataNodes" dataNodesDead GaugeValue;
       numeric "FilesTotal" dfsFilesTotal GaugeValue;
       numeric "CapacityTotal" dfsCapacityBytesTotal GaugeValue;
       numeric "CapacityUsed" dfsCapacityBytesUsed GaugeValue;
       numeric "CapacityRemaining" dfsCapacityBytesRemaining GaugeValue ]);
    ("Hadoop:service=NameNode,name=NameNodeInfo",
     [ {| source := "Safemode"; target := safemodeOn; kind := GaugeValue;
        rule := PresenceBoolean |};
       numeric "PercentUsed" dfsPercentUsed GaugeValue;
       numeric "PercentRemaining" dfsPercentRemaining GaugeValue;
       numeric "NonDfsUsedSpace" dfsNonDfsBytesUsed GaugeValue;
       numeric "BlockPoolUsedSpace" dfsBlockPoolBytesUsed GaugeValue;
       numeric "PercentBlockPoolUsed" dfsBlockPoolPercentUsed GaugeValue ]);
    ("Hadoop:service=NameNode,name=JvmMetrics",
     [ numeric "LogFatal" jvmLogFatal CounterValue;
       numeric "LogError" jvmLogError CounterValue;
       numeric "LogWarn" jvmLogWarn CounterValue;
       numeric "LogInfo" jvmLogInfo CounterValue;
       numeric "MemHeapUsedM" jvmMemHeapMegabytesUsed GaugeValue;
       numeric "MemHeapCommittedM" jvmMemHeapMegabytesCommitted GaugeValue;
       numeric "MemNonHeapUsedM" jvmMemNonHeapMegabytesUsed GaugeValue;
       numeric "MemNonHeapCommittedM" jvmMemNonHeapMegabytesCommitted GaugeValue;
       numeric "ThreadsNew" jvmThreadsNew GaugeValue;
       numeric "ThreadsRunnable" jvmThreadsRunnable GaugeValue;
       numeric "ThreadsBlocked" jvmThreadsBlocked GaugeValue;
       numeric "ThreadsWaiting" jvmThreadsWaiting GaugeValue;
       numeric "ThreadsTimedWaiting" jvmThreadsTimedWaiting GaugeValue;
       numeric "ThreadsTerminated" jvmThreadsTerminated GaugeValue ]) ].

(** The recognized bean names, in the order of the cases. *)
Definition recognizedNames : list string := mappingTable.*1.

(** The row of the first case that a [name] value selects, if any. *)
Definition lookupTable (name : value) : option (list mapping) :=
  snd <$> List.find (λ row, ifaceEqString name row.1) mappingTable.

Definition rowOf (b : jmxBean) : list mapping :=
  default [] (lookupTable (index b "name")).

(** A bean is recognized when its [name] is one of the recognized
    names. *)
Definition recognized (b : jmxBean) : bool :=
  existsb (ifaceEqString (index b "name")) recognizedNames.

(** The number a field value becomes under a rule; [None] is the failed
    type assertion of the numeric rule. *)
Definition coerce (r : coercion) (v : value) : option float64 :=
  match r with
  | NumericPassthrough => match v with VFloat f => Some f | _ => None end
  | EqualityBoolean lit => Some (if ifaceEqString v lit then 1%float else 0%float)
  | PresenceBoolean => Some (if negb (ifaceEqString v "") then 1%float else 0%float)
  end.

(** The sample one table entry yields on a bean; [None] when the entry's
    send is not reached because its argument panics. *)
Definition sampleOf (e : Exporter) (b : jmxBean) (m : mapping) : option Metric :=
  f ← coerce (rule m) (index b (source m));
  if (length (variableLabels (target m e)) =? 0)%nat
  then Some {| desc := target m e; valType := kind m; val := f; labelValues := [] |}
  else None.

Definition emit (e : Exporter) (b : jmxBean) (m : mapping) : run Metric unit :=
  match sampleOf e b m with
  | Some x => send x
  | None => panic
  end.

(** The samples of a bean, in table order: those of its row whose value
    can be formed. *)
Definition beanSamples (e : Exporter) (b : jmxBean) : list Metric :=
  omap (sampleOf e b) (rowOf b).

(** The descriptors the row of a recognized name feeds, in row order. *)
Definition descsOfName (e : Exporter) (n : string) : list Desc :=
  (λ m, target m e) <$> default [] (lookupTable (VString n)).

(** The reachability sample. *)
Definition upSample (e : Exporter) (v : float64) : Metric :=
  {| desc := up e; valType := GaugeValue; val := v; labelValues := [] |}.

(** ** Cycles *)

(** The envelope a cycle translates: there is one when the fetch
    succeeded with status 200 and the body decoded. *)
Definition envelopeOf (got : getResult) : option jmxEnvelope :=
  match got with
  | GetError _ => None
  | GetOk resp =>
      if (StatusCode resp =? StatusOK)%Z then Decode (Body resp) else None
  end.

(** The ways a cycle fails before translation. *)
Inductive failsBeforeTranslation : getResult → Prop :=
| FetchError err : failsBeforeTranslation (GetError err)
| BadStatus resp :
    StatusCode resp ≠ StatusOK → failsBeforeTranslation (GetOk resp)
| DecodeError resp :
    Decode (Body resp) = None → failsBeforeTranslation (GetOk resp).

(** A body whose top-level object has no member that selects [Beans]. *)
Definition lacksBeans (body : option json) : Prop :=
  ∃ members, body = Some (JObject members)
    ∧ Forall (λ kv, fieldMatches "beans" kv.1 = false) members.

(** The recognized names the beans of an array bear, in array order,
    one occurrence per bean. *)
Definition beanNames (beans : list jmxBean) : list string :=
  omap (λ b, match index b "name" with
             | VString n => if recognized b then Some n else None
             | _ => None
             end) beans.

(** A field value has the type its rule expects: a number for the
    numeric rule, a string for the two boolean rules. *)
Definition wellTyped (r : coercion) (v : value) : Prop :=
  match r with
  | NumericPassthrough => ∃ f, v = VFloat f
  | EqualityBoolean _ | PresenceBoolean => ∃ s, v = VString s
  end.

(** Every mapped field of the bean is populated with a value of the
    expected type. *)
Definition populated (b : jmxBean) : Prop :=
  Forall (λ m, wellTyped (rule m) (index b (source m))) (rowOf b).

(** The same as a check that can be run. *)
Definition wellTypedb (r : coercion) (v : value) : bool :=
  match r, v with
  | NumericPassthrough, VFloat _ => true
  | (EqualityBoolean _ | PresenceBoolean), VString _ => true
  | _, _ => false
  end.

Definition populatedb (b : jmxBean) : bool :=
  forallb (λ m, wellTypedb (rule m) (index b (source m))) (rowOf b).

(** The numeric fields of the bean are numbers; nothing is asked of its
    string fields. *)
Definition assertable (b : jmxBean) : Prop :=
  Forall (λ m, rule m = NumericPassthrough → ∃ f, index b (source m) = VFloat f)
    (rowOf b).

(** A recognized bean with a coercion fault: some mapped field is absent
    or of the wrong type. *)
Definition faulty (b : jmxBean) : Prop :=
  recognized b = true ∧ ¬ populated b.

(** ** Sample documents *)

(** A response with status 200 whose body is a JMX document with the
    given beans. *)
Definition jmxDocument (beans : list json) : getResult :=
  GetOk {| StatusCode := 200;
           Body := Some (JObject [ ("beans", JArray beans) ]) |}.

(** A bean the exporter has no mapping for. *)
Definition sampleUnmapped : json :=
  JObject [ ("name", JString "java.lang:type=Memory");
              ("Verbose", JBool false) ].

(** One bean of each recognized name, every mapped field populated. *)
Definition sampleRecognized : list json :=
  [
    JObject [ ("name", JString "java.lang:type=Runtime");
              ("Uptime", JNumber 1%float) ];
    JObject [ ("name", JString "Hadoop:service=NameNode,name=NameNodeStatus");
              ("State", JString "active") ];
    JObject [ ("name", JString "Hadoop:service=NameNode,name=FSNamesystem");
              ("BlocksTotal", JNumber 2%float);
              ("UnderReplicatedBlocks", JNumber 3%float);
              ("PendingReplicationBlocks", JNumber 4%float);
              ("ScheduledReplicationBlocks", JNumber 5%float);
              ("PostponedMisreplicatedBlocks", JNumber 6%float);
              ("PendingDeletionBlocks", JNumber 7%float);
              ("MissingBlocks", JNumber 8%float);
              ("CorruptBlocks", JNumber 9%float);
              ("ExcessBlocks", JNumber 10%float) ];
    JObject [ ("name", JString "Hadoop:service=NameNode,name=FSNamesystemState");
              ("FSState", JString "Operational");
              ("NumLiveDataNodes", JNumber 11%float);
              ("NumDeadDataNodes", JNumber 12%float);
              ("FilesTotal", JNumber 13%float);
              ("CapacityTotal", JNumber 14%float);
              ("CapacityUsed", JNumber 15%float);
              ("CapacityRemaining", JNumber 16%float) ];
    JObject [ ("name", JString "Hadoop:service=NameNode,name=NameNodeInfo");
              ("Safemode", JString "");
              ("PercentUsed", JNumber 17%float);
              ("PercentRemaining", JNumber 18%float);
              ("NonDfsUsedSpace", JNumber 19%float);
              ("BlockPoolUsedSpace", JNumber 20%float);
              ("PercentBlockPoolUsed", JNumber 21%float) ];
    JObject [ ("name", JString "Hadoop:service=NameNode,name=JvmMetrics");
              ("LogFatal", JNumber 22%float);
              ("LogError", JNumber 23%float);
              ("LogWarn", JNumber 24%float);
              ("LogInfo", JNumber 25%float);
              ("MemHeapUsedM", JNumber 26%float);
              ("MemHeapCommittedM", JNumber 27%float);
              ("MemNonHeapUsedM", JNumber 28%float);
              ("MemNonHeapCommittedM", JNumber 29%float);
              ("ThreadsNew", JNumber 30%float);
              ("ThreadsRunnable", JNumber 31%float);
              ("ThreadsBlocked", JNumber 32%float);
              ("ThreadsWaiting", JNumber 33%float);
              ("ThreadsTimedWaiting", JNumber 34%float);
              ("ThreadsTerminated", JNumber 35%float) ] ].

Definition sampleGot : getResult :=
  jmxDocument (sampleUnmapped :: sampleRecognized).

Definition sampleBeans : list jmxBean :=
  default [] (Beans <$> envelopeOf sampleGot).

(** The same document without the unmapped bean. *)
Definition sampleGotRecognized : getResult :=
  jmxDocument sampleRecognized.

(** The same document with a second [Runtime] bean in front. *)
Definition sampleTwoRuntime : getResult :=
  jmxDocument (JObject [ ("name", JString "java.lang:type=Runtime");
                         ("Uptime", JNumber 2%float) ]
               :: sampleUnmapped :: sampleRecognized).

(** A document whose only bean is a [Runtime] bean without [Uptime]. *)
Definition sampleNoUptime : getResult :=
  jmxDocument [ JObject [ ("name", JString "java.lang:type=Runtime") ] ].

(** The namenode answers 503. *)
Definition sampleUnavailable : getResult :=
  GetOk {| StatusCode := 503; Body := None |}.

(** A [NameNodeInfo] bean whose [Safemode] is three spaces, and one
    without [Safemode]; neither has any other field. *)
Definition sampleBlankSafemode : jmxBean :=
  objectInterface [ ("name", JString "Hadoop:service=NameNode,name=NameNodeInfo");
                    ("Safemode", JString "   ") ].

Definition sampleNoSafemode : jmxBean :=
  objectInterface [ ("name", JString "Hadoop:service=NameNode,name=NameNodeInfo") ].

(** ** The exported surface

    The numeric fields of the JMX document and the metrics they surface
    as: bean name, field, fully qualified metric name, value type. *)

Definition exportedNumeric : list (string * string * string * ValueType) :=
  [ ("java.lang:type=Runtime",
     "Uptime", "namenode_uptime_seconds", GaugeValue);
    ("Hadoop:service=NameNode,name=FSNamesystem",
     "BlocksTotal", "namenode_dfs_blocks_total", GaugeValue);
    ("Hadoop:service=NameNode,name=FSNamesystem",
     "UnderReplicatedBlocks", "namenode_dfs_blocks_under_replicated", GaugeValue);
    ("Hadoop:service=NameNode,name=FSNamesystem",
     "PendingReplicationBlocks", "namenode_dfs_blocks_pending_replication", GaugeValue);
    ("Hadoop:service=NameNode,name=FSNamesystem",
     "ScheduledReplicationBlocks", "namenode_dfs_blocks_scheduled_replication", GaugeValue);
    ("Hadoop:service=NameNode,name=FSNamesystem",
     "PostponedMisreplicatedBlocks", "namenode_dfs_blocks_postponed_misreplicated", GaugeValue);
    ("Hadoop:service=NameNode,name=FSNamesystem",
     "PendingDeletionBlocks", "namenode_dfs_blocks_pending_deletion", GaugeValue);
    ("Hadoop:service=NameNode,name=FSNamesystem",
     "MissingBlocks", "namenode_dfs_blocks_missing", GaugeValue);
    ("Hadoop:service=NameNode,name=FSNamesystem",
     "CorruptBlocks", "namenode_dfs_blocks_corrupt", GaugeValue);
    ("Hadoop:service=NameNode,name=FSNamesystem",
     "ExcessBlocks", "namenode_dfs_blocks_excess", GaugeValue);
    ("Hadoop:service=NameNode,name=FSNamesystemState",
     "NumLiveDataNodes", "namenode_data_nodes_live", GaugeValue);
    ("Hadoop:service=NameNode,name=FSNamesystemState",
     "NumDeadDataNodes", "namenode_data_nodes_dead", GaugeValue);
    ("Hadoop:service=NameNode,name=FSNamesystemState",
     "FilesTotal", "namenode_dfs_files_total", GaugeValue);
    ("Hadoop:service=NameNode,name=FSNamesystemState",
     "CapacityTotal", "namenode_dfs_capacity_bytes_total", GaugeValue);
    ("Hadoop:service=NameNode,name=FSNamesystemState",
     "CapacityUsed", "namenode_dfs_capacity_bytes_used", GaugeValue);
    ("Hadoop:service=NameNode,name=FSNamesystemState",
     "CapacityRemaining", "namenode_dfs_capacity_bytes_remaining", GaugeValue);
    ("Hadoop:service=NameNode,name=NameNodeInfo",
     "PercentUsed", "namenode_dfs_percent_used", GaugeValue);
    ("Hadoop:service=NameNode,name=NameNodeInfo",
     "PercentRemaining", "namenode_dfs_percent_remaining", GaugeValue);
    ("Hadoop:service=NameNode,name=NameNodeInfo",
     "NonDfsUsedSpace", "namenode_dfs_non_dfs_bytes_used", GaugeValue);
    ("Hadoop:service=NameNode,name=NameNodeInfo",
     "BlockPoolUsedSpace", "namenode_dfs_block_pool_bytes_used", GaugeValue);
    ("Hadoop:service=NameNode,name=NameNodeInfo",
     "PercentBlockPoolUsed", "namenode_dfs_block_pool_percent_used", GaugeValue);
    ("Hadoop:service=NameNode,name=JvmMetrics",
     "LogFatal", "namenode_jvm_log_fatal", CounterValue);
    ("Hadoop:service=NameNode,name=JvmMetrics",
     "LogError", "namenode_jvm_log_error", CounterValue);
    ("Hadoop:service=NameNode,name=JvmMetrics",
     "LogWarn", "namenode_jvm_log_warn", CounterValue);
    ("Hadoop:service=NameNode,name=JvmMetrics",
     "LogInfo", "namenode_jvm_log_info", CounterValue);
    ("Hadoop:service=NameNode,name=JvmMetrics",
     "MemHeapUsedM", "namenode_jvm_mem_heap_megabytes_used", GaugeValue);
    ("Hadoop:service=NameNode,name=JvmMetrics",
     "MemHeapCommittedM", "namenode_jvm_mem_heap_megabytes_committed", GaugeValue);
    ("Hadoop:service=NameNode,name=JvmMetrics",
     "MemNonHeapUsedM", "namenode_jvm_mem_non_heap_megabytes_used", GaugeValue);
    ("Hadoop:service=NameNode,name=JvmMetrics",
     "MemNonHeapCommittedM", "namenode_jvm_mem_non_heap_megabytes_committed", GaugeValue);
    ("Hadoop:service=NameNode,name=JvmMetrics",
     "ThreadsNew", "namenode_jvm_threads_new", GaugeValue);
    ("Hadoop:service=NameNode,name=JvmMetrics",
     "ThreadsRunnable", "namenode_jvm_threads_runnable", GaugeValue);
    ("Hadoop:service=NameNode,name=JvmMetrics",
     "ThreadsBlocked", "namenode_jvm_threads_blocked", GaugeValue);
    ("Hadoop:service=NameNode,name=JvmMetrics",
     "ThreadsWaiting", "namenode_jvm_threads_waiting", GaugeValue);
    ("Hadoop:service=NameNode,name=JvmMetrics",
     "ThreadsTimedWaiting", "namenode_jvm_threads_timed_waiting", GaugeValue);
    ("Hadoop:service=NameNode,name=JvmMetrics",
     "ThreadsTerminated", "namenode_jvm_threads_terminated", GaugeValue) ].

(** The same association read off the mapping table and the
    descriptors of an exporter. *)
Definition surfaceOf (e : Exporter) : list (string * string * string * ValueType) :=
  row ← mappingTable;
  m ← row.2;
  match rule m with
  | NumericPassthrough => [ (row.1, source m, fqName (target m e), kind m) ]
  | _ => []
  end.

(** The names of the four log counters and of the four gauges whose
    value is a truth value. *)
Definition logCounterNames : list string :=
  [ "namenode_jvm_log_fatal"; "namenode_jvm_log_error";
    "namenode_jvm_log_warn"; "namenode_jvm_log_info" ].

Definition booleanGaugeNames : list string :=
  [ "namenode_up"; "namenode_state";
    "namenode_fs_operational"; "namenode_safemode_on" ].

(** A descriptor the registry accepts: a name in the exporter's
    namespace, a help text, no labels. *)
Definition registrable (d : Desc) : Prop :=
  String.prefix "namenode_" (fqName d) = true
  ∧ help d ≠ ""
  ∧ variableLabels d = []
  ∧ constLabels d = [].

(** [assertable] as a check that can be run. *)
Definition assertableb (b : jmxBean) : bool :=
  forallb (λ m, match rule m, index b (source m) with
                | NumericPassthrough, VFloat _ => true
                | NumericPassthrough, _ => false
                | _, _ => true
                end) (rowOf b).

(** A document with a [Runtime] bean, a [NameNodeInfo] bean that stops
    short after [PercentUsed], and a [NameNodeStatus] bean. *)
Definition sampleRuntime : json :=
  JObject [ ("name", JString "java.lang:type=Runtime");
            ("Uptime", JNumber 42%float) ].

Definition sampleShortInfo : json :=
  JObject [ ("name", JString "Hadoop:service=NameNode,name=NameNodeInfo");
            ("Safemode", JString "");
            ("PercentUsed", JNumber 7%float);
            ("PercentRemaining", JString "93") ].

Definition sampleStandby : json :=
  JObject [ ("name", JString "Hadoop:service=NameNode,name=NameNodeStatus");
            ("State", JString "standby") ].

Definition samplePartial : getResult :=
  jmxDocument [ sampleRuntime; sampleShortInfo; sampleStandby ].

(** The sample document with its beans in reverse order, and with two
    more members beside [beans]. *)
Definition sampleReversed : getResult :=
  jmxDocument (reverse (sampleUnmapped :: sampleRecognized)).


(** ** The PID file

    The function [main] hands to the process collector when a PID file
    is configured. A [[]byte] and the string made of it are the list of
    their bytes. *)

(** [unicode.IsSpace] on runes, told by their UTF-8 encoding: of one
    byte (tab to carriage return, space), of two (U+0085, U+00A0), of
    three (U+1680, U+2000 to U+200A, U+2028, U+2029, U+202F, U+205F,
    U+3000). *)
Definition space1 (a : N) : bool :=
  ((9 <=? a) && (a <=? 13) || (a =? 32))%N.

Definition space2 (a b : N) : bool :=
  ((a =? 0xC2) && ((b =? 0x85) || (b =? 0xA0)))%N.

Definition space3 (a b c : N) : bool :=
  ((a =? 0xE1) && (b =? 0x9A) && (c =? 0x80)
   || (a =? 0xE2) && (b =? 0x80)
      && ((0x80 <=? c) && (c <=? 0x8A) || (c =? 0xA8) || (c =? 0xA9) || (c =? 0xAF))
   || (a =? 0xE2) && (b =? 0x81) && (c =? 0x9F)
   || (a =? 0xE3) && (b =? 0x80) && (c =? 0x80))%N.

(** Dropping the runes at the head of [s] that are spaces; [two] and
    [three] tell the encodings of two and three bytes. *)
Fixpoint trimRunes (two : N → N → bool) (three : N → N → N → bool)
    (s : list ascii) : list ascii :=
  match s with
  | [] => []
  | a :: r =>
      if space1 (N_of_ascii a) then trimRunes two three r
      else
        match r with
        | [] => s
        | b :: r2 =>
            if two (N_of_ascii a) (N_of_ascii b) then trimRunes two three r2
            else
              match r2 with
              | [] => s
              | c :: r3 =>
                  if three (N_of_ascii a) (N_of_ascii b) (N_of_ascii c)
                  then trimRunes two three r3
                  else s
              end
        end
  end.

Definition trimLeft (s : list ascii) : list ascii :=
  trimRunes space2 space3 s.

(** From the right the encodings are met last byte first. *)
Definition trimRight (s : list ascii) : list ascii :=
  reverse (trimRunes (λ a b, space2 b a) (λ a b c, space3 c b a) (reverse s)).

(** [strings.TrimSpace] *)
Definition TrimSpace (s : list ascii) : list ascii :=
  trimRight (trimLeft s).

Definition digit (a : ascii) : option Z :=
  let n := N_of_ascii a in
  if ((48 <=? n) && (n <=? 57))%N then Some (Z.of_N n - 48) else None.

Fixpoint digitsValue (s : list ascii) (acc : Z) : option Z :=
  match s with
  | [] => Some acc
  | a :: r => d ← digit a; digitsValue r (acc * 10 + d)
  end.

(** [strconv.Atoi], for an [int] of [intSize] bits: an optional sign
    and at least one decimal digit, the value within the range of
    [int]. [None] is a non-nil [*NumError], of whichever kind. *)
Definition Atoi (intSize : Z) (s : list ascii) : option Z :=
  let '(neg, ds) :=
    match s with
    | c :: r =>
        if Ascii.eqb c "-" then (true, r)
        else if Ascii.eqb c "+" then (false, r)
        else (false, s)
    | [] => (false, [])
    end in
  match ds with
  | [] => None
  | _ =>
      n ← digitsValue ds 0;
      let v := if neg then - n else n in
      if ((- 2 ^ (intSize - 1) <=? v) && (v <? 2 ^ (intSize - 1)))%Z
      then Some v else None
  end.

(** The errors [fmt.Errorf] makes, by what they are made of. *)
Inductive pidError : Type :=
| CantRead (path : string) (cause : string)
| CantParse (path : string).

(** The function literal of [main]; [read] is what [ioutil.ReadFile]
    gave for [*pidFile]. *)
Definition pidFn (intSize : Z) (pidFile : string)
    (read : list ascii + string) : Z * option pidError :=
  match read with
  | inr err => (0, Some (CantRead pidFile err))
  | inl content =>
      match Atoi intSize (TrimSpace content) with
      | None => (0, Some (CantParse pidFile))
      | Some value => (value, None)
      end
  end.

(** Decimal notation, to state what [pidFn] reads. *)
Definition digitChar (d : Z) : ascii := ascii_of_N (Z.to_N (48 + d)).

Fixpoint decimalFuel (fuel : nat) (n : Z) : list ascii :=
  match fuel with
  | O => []
  | S fuel =>
      if (n <? 10)%Z then [digitChar n]
      else decimalFuel fuel (n / 10) ++ [digitChar (n mod 10)]
  end.

Definition decimal (n : Z) : list ascii := decimalFuel (S (Z.to_nat n)) n.

Definition signedDecimal (v : Z) : list ascii :=
  if (v <? 0)%Z then "-"%char :: decimal (- v) else decimal v.

(** A byte that is one of the six ASCII spaces. *)
Definition asciiSpace (c : ascii) : Prop := space1 (N_of_ascii c) = true.

(** * Properties *)

(** ** The monad *)

Lemma bind_ret_tt {T : Type} (m : run T unit) : (m ;; ret tt) = m.
Proof.
  destruct m as [s [[]|]]; unfold mbind, run_bind, bind; simpl;
    by rewrite ?app_nil_r.
Qed.

Lemma sent_bind {T A B : Type} (m : run T A) (k : A → run T B) a :
  result m = Returned a → sent (m ≫= k) = sent m ++ sent (k a).
Proof. intros H. unfold mbind, run_bind, bind. by rewrite H. Qed.

Lemma result_bind {T A B : Type} (m : run T A) (k : A → run T B) a :
  result m = Returned a → result (m ≫= k) = result (k a).
Proof. intros H. unfold mbind, run_bind, bind. by rewrite H. Qed.

Lemma bind_panicked {T A B : Type} (m : run T A) (k : A → run T B) :
  result m = Panicked → m ≫= k = Run (sent m) Panicked.
Proof. intros H. unfold mbind, run_bind, bind. by rewrite H. Qed.

(** ** The switch is the table *)

Lemma emit_numeric e b src tgt k :
  emit e b (numeric src tgt k)
  = (f ← assertFloat64 (index b src); MustNewConstMetric (tgt e) k f [] ≫= send).
Proof.
  unfold emit, sampleOf, numeric, MustNewConstMetric; simpl.
  destruct (index b src); simpl; try reflexivity.
  by destruct (length (variableLabels (tgt e)) =? 0)%nat.
Qed.

Lemma emit_equality e b src tgt k lit :
  emit e b {| source := src; target := tgt; kind := k; rule := EqualityBoolean lit |}
  = (mustNewConstBoolMetric (tgt e) k (ifaceEqString (index b src) lit) [] ≫= send).
Proof.
  unfold emit, sampleOf, mustNewConstBoolMetric, MustNewConstMetric; simpl.
  by destruct (length (variableLabels (tgt e)) =? 0)%nat.
Qed.

Lemma emit_presence e b src tgt k :
  emit e b {| source := src; target := tgt; kind := k; rule := PresenceBoolean |}
  = (mustNewConstBoolMetric (tgt e) k (negb (ifaceEqString (index b src) "")) [] ≫= send).
Proof.
  unfold emit, sampleOf, mustNewConstBoolMetric, MustNewConstMetric; simpl.
  by destruct (length (variableLabels (tgt e)) =? 0)%nat.
Qed.

Lemma collectBean_table e b :
  collectBean e b = forRange (rowOf b) (emit e b).
Proof.
  unfold collectBean, rowOf, lookupTable, mappingTable; simpl.
  repeat (destruct (ifaceEqString (index b "name") _); simpl;
    [ rewrite ?emit_numeric, ?emit_equality, ?emit_presence, ?bind_ret_tt;
      reflexivity | ]).
  reflexivity.
Qed.

(** ** Range loops *)

Section forRange.
Context {T X : Type} (body : X → run T unit).

Lemma returns_unit (m : run T unit) : returns m ↔ result m = Returned tt.
Proof.
  split; [intros [[] H]; done | intros H; by exists tt].
Qed.

Lemma forRange_cons_returned x xs :
  result (body x) = Returned tt →
  forRange (x :: xs) body
  = Run (sent (body x) ++ sent (forRange xs body)) (result (forRange xs body)).
Proof. intros H; simpl. unfold mbind, run_bind, bind. by rewrite H. Qed.

Lemma forRange_cons_panicked x xs :
  result (body x) = Panicked →
  forRange (x :: xs) body = Run (sent (body x)) Panicked.
Proof. intros H; simpl. by apply bind_panicked. Qed.

Lemma result_cases (m : run T unit) :
  result m = Returned tt ∨ result m = Panicked.
Proof. destruct (result m) as [[]|]; auto. Qed.

Lemma forRange_returns xs :
  returns (forRange xs body) ↔ Forall (λ x, returns (body x)) xs.
Proof.
  induction xs as [|x xs IH].
  - split; [constructor | by exists tt].
  - rewrite Forall_cons, <- IH.
    destruct (result_cases (body x)) as [H|H].
    + rewrite (forRange_cons_returned _ _ H).
      rewrite !returns_unit; simpl. tauto.
    + rewrite (forRange_cons_panicked _ _ H).
      rewrite !returns_unit, H; simpl. split; [done | by intros [? _]].
Qed.

Lemma forRange_sent_returns xs :
  Forall (λ x, returns (body x)) xs →
  sent (forRange xs body) = xs ≫= (λ x, sent (body x)).
Proof.
  induction 1 as [|x xs Hx _ IH]; [done|].
  apply returns_unit in Hx.
  rewrite (forRange_cons_returned _ _ Hx), bind_cons; simpl. by rewrite IH.
Qed.

(** What a loop sends is a prefix of what its iterations would send
    if none of them were cut short. *)
Lemma forRange_sent_prefix (full : X → list T) xs :
  (∀ x, sent (body x) `prefix_of` full x) →
  (∀ x, returns (body x) → sent (body x) = full x) →
  sent (forRange xs body) `prefix_of` xs ≫= full.
Proof.
  intros Hpre Hfull. induction xs as [|x xs IH]; [done|].
  rewrite bind_cons. destruct (result_cases (body x)) as [H|H].
  - rewrite (forRange_cons_returned _ _ H); simpl.
    rewrite (Hfull x) by (by apply returns_unit). by apply prefix_app.
  - rewrite (forRange_cons_panicked _ _ H); simpl.
    by apply prefix_app_r.
Qed.

Lemma forRange_app_sent pre post :
  returns (forRange pre body) →
  sent (forRange (pre ++ post) body)
  = sent (forRange pre body) ++ sent (forRange post body).
Proof.
  induction pre as [|x pre IH]; [done|].
  intros Hret. pose proof Hret as Hall.
  apply forRange_returns in Hall. inversion Hall as [|? ? Hx Hpre]; subst.
  apply returns_unit in Hx. rewrite <- app_comm_cons.
  rewrite !(forRange_cons_returned _ _ Hx); simpl.
  rewrite IH by (by apply forRange_returns). by rewrite app_assoc.
Qed.

Lemma forRange_app_result pre post :
  returns (forRange pre body) →
  result (forRange (pre ++ post) body) = result (forRange post body).
Proof.
  induction pre as [|x pre IH]; [done|].
  intros Hret. pose proof Hret as Hall.
  apply forRange_returns in Hall. inversion Hall as [|? ? Hx Hpre]; subst.
  apply returns_unit in Hx. rewrite <- app_comm_cons.
  rewrite !(forRange_cons_returned _ _ Hx); simpl.
  apply IH. by apply forRange_returns.
Qed.

(** Iterations that send nothing and return can be dropped. *)
Lemma forRange_filter (keep : X → bool) xs :
  (∀ x, keep x = false → body x = ret tt) →
  forRange (List.filter keep xs) body = forRange xs body.
Proof.
  intros Hskip. induction xs as [|x xs IH]; [done|]. simpl.
  destruct (keep x) eqn:Hk; simpl; rewrite IH; [done|].
  rewrite (Hskip x Hk). unfold mbind, run_bind, bind; simpl.
  by destruct (forRange xs body).
Qed.
End forRange.

(** ** One row of the table on one bean *)

Section row.
Context (e : Exporter) (b : jmxBean).

Lemma emit_returns m : returns (emit e b m) ↔ is_Some (sampleOf e b m).
Proof.
  unfold emit. destruct (sampleOf e b m); simpl.
  - split; [eauto | by exists tt].
  - split; [intros [? ?]; done | intros [? ?]; done].
Qed.

Lemma emit_sent m : sent (emit e b m) = option_list (sampleOf e b m).
Proof. unfold emit. by destruct (sampleOf e b m). Qed.

Lemma row_returns ms :
  returns (forRange ms (emit e b)) ↔ Forall (λ m, is_Some (sampleOf e b m)) ms.
Proof.
  rewrite forRange_returns. apply Forall_proper; [|done].
  intros m. apply emit_returns.
Qed.

Lemma row_sent_prefix ms :
  sent (forRange ms (emit e b)) `prefix_of` omap (sampleOf e b) ms.
Proof.
  induction ms as [|m ms IH]; [done|].
  destruct (result_cases (emit e b m)) as [H|H].
  - rewrite (forRange_cons_returned _ _ _ H); simpl. rewrite emit_sent.
    apply returns_unit, emit_returns in H as [x Hx]. rewrite Hx; simpl.
    by apply prefix_cons.
  - rewrite (forRange_cons_panicked _ _ _ H); simpl. rewrite emit_sent.
    destruct (sampleOf e b m) eqn:Hm; simpl; [|apply prefix_nil].
    unfold emit in H. by rewrite Hm in H.
Qed.

Lemma row_sent_returns ms :
  returns (forRange ms (emit e b)) →
  sent (forRange ms (emit e b)) = omap (sampleOf e b) ms.
Proof.
  intros H. rewrite forRange_sent_returns by (by apply forRange_returns).
  apply row_returns in H.
  induction H as [|m ms [x Hx] _ IH]; [done|].
  rewrite bind_cons; simpl. by rewrite emit_sent, Hx, IH.
Qed.
End row.

(** ** One bean *)

Lemma ifaceEqString_true v lit : ifaceEqString v lit = true ↔ v = VString lit.
Proof.
  destruct v; simpl; try (split; [done | discriminate]).
  rewrite String.eqb_eq. split; [by intros -> | by intros [= ->]].
Qed.

(** The row of a bean is empty or the row of its name. *)
Lemma rowOf_cases b :
  (lookupTable (index b "name") = None ∧ rowOf b = [])
  ∨ ∃ name, (name, rowOf b) ∈ mappingTable ∧ index b "name" = VString name.
Proof.
  unfold rowOf, lookupTable.
  destruct (List.find _ mappingTable) as [[name ms]|] eqn:Hfind; simpl.
  - right. exists name. apply find_some in Hfind as [Hin Hname]; simpl in Hname.
    split; [by apply list_elem_of_In | by apply ifaceEqString_true].
  - by left.
Qed.

(** Only a recognized bean sends anything. *)
Lemma recognized_lookup b :
  recognized b = true ↔ is_Some (lookupTable (index b "name")).
Proof.
  unfold recognized, lookupTable, recognizedNames, mappingTable; simpl.
  repeat (destruct (ifaceEqString (index b "name") _); simpl;
    [split; [eauto | done] | ]).
  split; [done | by intros [? ?]].
Qed.

Lemma recognized_name b :
  recognized b = true ↔ ∃ n, n ∈ recognizedNames ∧ index b "name" = VString n.
Proof.
  unfold recognized. rewrite existsb_exists. split.
  - intros (n & Hin & Hn). exists n.
    split; [by apply list_elem_of_In | by apply ifaceEqString_true].
  - intros (n & Hin & Hn). exists n.
    split; [by apply list_elem_of_In | by apply ifaceEqString_true].
Qed.

Lemma rowOf_unrecognized b : recognized b = false → rowOf b = [].
Proof.
  intros Hno. unfold rowOf. destruct (lookupTable _) eqn:H; [|done].
  assert (recognized b = true) by (apply recognized_lookup; eauto).
  congruence.
Qed.

Lemma collectBean_unrecognized e b :
  recognized b = false → collectBean e b = ret tt.
Proof.
  intros Hno. by rewrite collectBean_table, rowOf_unrecognized.
Qed.

Lemma collectBean_returns e b :
  returns (collectBean e b) ↔ Forall (λ m, is_Some (sampleOf e b m)) (rowOf b).
Proof. rewrite collectBean_table. apply row_returns. Qed.

Lemma collectBean_sent_prefix e b :
  sent (collectBean e b) `prefix_of` beanSamples e b.
Proof. rewrite collectBean_table. apply row_sent_prefix. Qed.

Lemma collectBean_sent_returns e b :
  returns (collectBean e b) → sent (collectBean e b) = beanSamples e b.
Proof. rewrite collectBean_table. apply row_sent_returns. Qed.

(** ** Descriptors *)

(** Every descriptor the table points at is one [Describe] sends. *)
Lemma table_targets_described e :
  Forall (λ row, Forall (λ m, target m e ∈ sent (Describe e)) row.2) mappingTable.
Proof.
  unfold mappingTable, numeric; simpl.
  repeat constructor; simpl; set_solver.
Qed.

Lemma beanSamples_described e b x :
  x ∈ beanSamples e b → desc x ∈ sent (Describe e).
Proof.
  unfold beanSamples. rewrite list_elem_of_omap. intros (m & Hm & Hx).
  destruct (rowOf_cases b) as [[_ Hnil]|(name & Hrow & _)].
  - rewrite Hnil in Hm. by apply elem_of_nil in Hm.
  - pose proof (table_targets_described e) as Hall.
    rewrite Forall_forall in Hall. specialize (Hall _ Hrow). simpl in Hall.
    rewrite Forall_forall in Hall. specialize (Hall _ Hm).
    unfold sampleOf in Hx. destruct (coerce _ _); simpl in Hx; [|done].
    destruct (_ =? _)%nat; [|done]. injection Hx as <-. exact Hall.
Qed.

(** The descriptors [NewExporter] builds have no variable labels. *)
Definition labelless (e : Exporter) : Prop :=
  Forall (λ d, variableLabels d = []) (sent (Describe e)).

Lemma NewExporter_labelless url timeout : labelless (NewExporter url timeout).
Proof. unfold labelless; simpl. repeat constructor. Qed.

Lemma labelless_up e : labelless e → variableLabels (up e) = [].
Proof. intros H. by inversion H. Qed.

Lemma labelless_target e b m :
  labelless e → m ∈ rowOf b → variableLabels (target m e) = [].
Proof.
  intros Hl Hm. destruct (rowOf_cases b) as [[_ Hnil]|(name & Hrow & _)].
  - rewrite Hnil in Hm. by apply elem_of_nil in Hm.
  - pose proof (table_targets_described e) as Hall.
    rewrite Forall_forall in Hall. specialize (Hall _ Hrow). simpl in Hall.
    rewrite Forall_forall in Hall. specialize (Hall _ Hm).
    unfold labelless in Hl. rewrite Forall_forall in Hl. by apply Hl.
Qed.

(** With label-free descriptors a sample fails to form only on a failed
    type assertion. *)
Lemma sampleOf_labelless e b m :
  labelless e → m ∈ rowOf b →
  sampleOf e b m
  = (λ f, {| desc := target m e; valType := kind m; val := f; labelValues := [] |})
      <$> coerce (rule m) (index b (source m)).
Proof.
  intros Hl Hm. unfold sampleOf. rewrite (labelless_target e b m Hl Hm); simpl.
  by destruct (coerce _ _).
Qed.

(** ** The cycle *)

Lemma failsBeforeTranslation_envelopeOf got :
  failsBeforeTranslation got ↔ envelopeOf got = None.
Proof.
  split.
  - intros [err|resp Hs|resp Hd]; simpl; [done| |].
    + by destruct (Z.eqb_spec (StatusCode resp) StatusOK).
    + by destruct (StatusCode resp =? StatusOK)%Z.
  - destruct got as [err|resp]; simpl; [constructor|].
    destruct (Z.eqb_spec (StatusCode resp) StatusOK); intros H.
    + by apply DecodeError.
    + by apply BadStatus.
Qed.

Lemma Collect_fails e got :
  labelless e → envelopeOf got = None →
  Collect e got = Run [upSample e 0%float] (Returned tt).
Proof.
  intros Hl Henv. unfold Collect, MustNewConstMetric.
  rewrite (labelless_up e Hl); simpl.
  destruct got as [err|resp]; [done|]. simpl in Henv.
  destruct (StatusCode resp =? StatusOK)%Z; simpl; [|done].
  by rewrite Henv.
Qed.

Lemma Collect_translates e got envelope :
  labelless e → envelopeOf got = Some envelope →
  Collect e got
  = Run (upSample e 1%float :: sent (forRange (Beans envelope) (collectBean e)))
        (result (forRange (Beans envelope) (collectBean e))).
Proof.
  intros Hl Henv. unfold Collect, MustNewConstMetric.
  rewrite (labelless_up e Hl); simpl.
  destruct got as [err|resp]; [done|]. simpl in Henv.
  destruct (StatusCode resp =? StatusOK)%Z; simpl; [|done].
  by rewrite Henv.
Qed.

Lemma beans_sent_prefix e beans :
  sent (forRange beans (collectBean e)) `prefix_of` beans ≫= beanSamples e.
Proof.
  apply forRange_sent_prefix.
  - apply collectBean_sent_prefix.
  - apply collectBean_sent_returns.
Qed.

Lemma beans_sent_returns e beans :
  returns (forRange beans (collectBean e)) →
  sent (forRange beans (collectBean e)) = beans ≫= beanSamples e.
Proof.
  intros H. rewrite forRange_sent_returns by (by apply forRange_returns).
  apply forRange_returns in H.
  induction H as [|b beans Hb _ IH]; [done|].
  by rewrite !bind_cons, IH, collectBean_sent_returns.
Qed.

(** Whatever the descriptors, a cycle sends at most one reachability
    sample and then samples of the beans. *)
Lemma Collect_sent_shape e got :
  ∃ v beans, sent (Collect e got) `prefix_of` upSample e v :: beans ≫= beanSamples e.
Proof.
  unfold Collect, MustNewConstMetric; simpl.
  destruct (length (variableLabels (up e)) =? 0)%nat eqn:Hup; simpl.
  - destruct got as [err|resp]; simpl.
    { exists 0%float, []. done. }
    destruct (StatusCode resp =? StatusOK)%Z; simpl.
    2:{ exists 0%float, []. done. }
    destruct (Decode (Body resp)) as [envelope|]; simpl.
    2:{ exists 0%float, []. done. }
    exists 1%float, (Beans envelope).
    unfold mbind, run_bind, bind; simpl.
    apply prefix_cons, beans_sent_prefix.
  - exists 0%float, []. 
    destruct got as [err|resp]; simpl; [apply prefix_nil|].
    destruct (StatusCode resp =? StatusOK)%Z; simpl; [|apply prefix_nil].
    destruct (Decode (Body resp)); simpl; apply prefix_nil.
Qed.

(** ** Descriptors announced and descriptors used *)

(** C9. Every sample [Collect] sends, in any cycle and for any exporter,
    carries a descriptor that [Describe] sends: the announced set of
    metric identities covers all that can be emitted. *)
Theorem Describe_covers_Collect (e : Exporter) (got : getResult) :
  Forall (λ x, desc x ∈ sent (Describe e)) (sent (Collect e got)).
Proof.
  destruct (Collect_sent_shape e got) as (v & beans & Hpre).
  apply Forall_forall. intros x Hx.
  apply (elem_of_prefix _ _ _ Hx) in Hpre.
  apply elem_of_cons in Hpre as [->|Hin].
  - simpl. set_solver.
  - apply list_elem_of_bind in Hin as (b & Hxb & _).
    by apply (beanSamples_described e b).
Qed.

(** ** Failed cycles *)

Lemma float_one_ne_zero : 1%float ≠ 0%float.
Proof.
  intros H. assert (Hb : PrimFloat.eqb 1 0 = true) by (by rewrite H).
  vm_compute in Hb. discriminate.
Qed.

(** A top-level object without a member for [Beans] decodes to the
    zero envelope. *)
Lemma unmarshalMembers_lacking members envelope :
  Forall (λ kv, fieldMatches "beans" kv.1 = false) members →
  unmarshalMembers members envelope = Some envelope.
Proof.
  induction 1 as [|[k v] members Hk _ IH]; [done|].
  simpl in *. by rewrite Hk.
Qed.

Lemma lacksBeans_decodes body :
  lacksBeans body → Decode body = Some {| Beans := [] |}.
Proof.
  intros (members & -> & Hall). simpl. by apply unmarshalMembers_lacking.
Qed.

(** C2, as amended. A cycle that fails before translation, by a fetch
    error, by a status other than 200 or by an error of [Decode], sends
    the [up] sample with value 0 and nothing else, and returns. *)
Theorem failed_cycle_sends_up_0 (url : string) (timeout : Z) (got : getResult) :
  failsBeforeTranslation got →
  Collect (NewExporter url timeout) got
  = Run [upSample (NewExporter url timeout) 0%float] (Returned tt).
Proof.
  intros H. apply Collect_fails; [apply NewExporter_labelless|].
  by apply failsBeforeTranslation_envelopeOf.
Qed.

Lemma failed_cycle_sends_up_0_witness :
  failsBeforeTranslation sampleUnavailable
  ∧ Collect (NewExporter "http://localhost:50070/jmx" 5000000000) sampleUnavailable
    = Run [upSample (NewExporter "http://localhost:50070/jmx" 5000000000) 0%float]
          (Returned tt).
Proof.
  assert (H : failsBeforeTranslation sampleUnavailable).
  { apply BadStatus. simpl. unfold StatusOK. lia. }
  split; [exact H|].
  exact (failed_cycle_sends_up_0 "http://localhost:50070/jmx" 5000000000
           sampleUnavailable H).
Defined.

(** C2, as stated, fails: a body that is an object without a [beans]
    member is no decode failure. The empty object, served with status 200,
    gives [up] with value 1. *)
Lemma missing_beans_sends_up_1 :
  lacksBeans (Some (JObject []))
  ∧ Collect (NewExporter "http://localhost:50070/jmx" 5000000000)
      (GetOk {| StatusCode := 200; Body := Some (JObject []) |})
    = Run [upSample (NewExporter "http://localhost:50070/jmx" 5000000000) 1%float]
          (Returned tt)
  ∧ sent (Collect (NewExporter "http://localhost:50070/jmx" 5000000000)
            (GetOk {| StatusCode := 200; Body := Some (JObject []) |}))
    ≠ [upSample (NewExporter "http://localhost:50070/jmx" 5000000000) 0%float].
Proof.
  split; [|split].
  - exists []. split; [done | constructor].
  - reflexivity.
  - simpl. intros H. apply float_one_ne_zero.
    exact (f_equal (λ l, match l with x :: _ => val x | [] => 0%float end) H).
Qed.

(** ** Order of the samples *)

(** C7. In a cycle that reaches translation the [up] sample comes first;
    the field samples follow bean by bean in array order, those of a
    bean in the order of its row of the mapping table. A panic cuts the
    sequence short but does not reorder it. *)
Theorem up_first_then_table_order (url : string) (timeout : Z)
    (got : getResult) (beans : list jmxBean) :
  envelopeOf got = Some {| Beans := beans |} →
  ∃ fields,
    sent (Collect (NewExporter url timeout) got)
    = upSample (NewExporter url timeout) 1%float :: fields
    ∧ fields `prefix_of` beans ≫= beanSamples (NewExporter url timeout)
    ∧ (returns (Collect (NewExporter url timeout) got) →
       fields = beans ≫= beanSamples (NewExporter url timeout)).
Proof.
  intros Henv. pose proof (NewExporter_labelless url timeout) as Hl.
  rewrite (Collect_translates _ _ _ Hl Henv); simpl.
  eexists; split; [reflexivity|]. split.
  - apply beans_sent_prefix.
  - intros [a Ha]. apply beans_sent_returns. by exists a.
Qed.

Lemma up_first_then_table_order_witness :
  envelopeOf sampleGot = Some {| Beans := sampleBeans |}
  ∧ ∃ fields,
      sent (Collect (NewExporter "http://localhost:50070/jmx" 5000000000) sampleGot)
      = upSample (NewExporter "http://localhost:50070/jmx" 5000000000) 1%float :: fields
      ∧ fields `prefix_of`
          sampleBeans ≫= beanSamples (NewExporter "http://localhost:50070/jmx" 5000000000)
      ∧ (returns (Collect (NewExporter "http://localhost:50070/jmx" 5000000000) sampleGot) →
         fields
         = sampleBeans ≫= beanSamples (NewExporter "http://localhost:50070/jmx" 5000000000)).
Proof.
  split; [reflexivity|].
  apply (up_first_then_table_order "http://localhost:50070/jmx" 5000000000
           sampleGot sampleBeans).
  reflexivity.
Defined.

(** ** Beans without a mapping *)

(** C8. Dropping from the array the beans whose name is not recognized
    changes nothing of what the cycle sends nor of how it ends; an array
    with no recognized bean gives the [up] sample with value 1 alone. *)
Theorem unrecognized_beans_ignored (url : string) (timeout : Z)
    (got got' : getResult) (beans : list jmxBean) :
  envelopeOf got = Some {| Beans := beans |} →
  envelopeOf got' = Some {| Beans := List.filter recognized beans |} →
  Collect (NewExporter url timeout) got' = Collect (NewExporter url timeout) got
  ∧ (Forall (λ b, recognized b = false) beans →
     Collect (NewExporter url timeout) got
     = Run [upSample (NewExporter url timeout) 1%float] (Returned tt)).
Proof.
  intros Henv Henv'. pose proof (NewExporter_labelless url timeout) as Hl.
  rewrite (Collect_translates _ _ _ Hl Henv), (Collect_translates _ _ _ Hl Henv').
  simpl. split.
  - rewrite forRange_filter; [done|]. apply collectBean_unrecognized.
  - intros Hnone.
    assert (Hf : List.filter recognized beans = []).
    { clear Henv Henv'. induction Hnone as [|b beans Hb _ IH]; [done|].
      simpl. by rewrite Hb. }
    rewrite <- (forRange_filter (collectBean (NewExporter url timeout)) recognized beans)
      by apply collectBean_unrecognized.
    by rewrite Hf.
Qed.

Lemma unrecognized_beans_ignored_witness :
  envelopeOf sampleGot = Some {| Beans := sampleBeans |}
  ∧ envelopeOf sampleGotRecognized
    = Some {| Beans := List.filter recognized sampleBeans |}
  ∧ Collect (NewExporter "http://localhost:50070/jmx" 5000000000) sampleGotRecognized
    = Collect (NewExporter "http://localhost:50070/jmx" 5000000000) sampleGot.
Proof.
  assert (Henv : envelopeOf sampleGot = Some {| Beans := sampleBeans |})
    by reflexivity.
  assert (Henv' : envelopeOf sampleGotRecognized
                  = Some {| Beans := List.filter recognized sampleBeans |})
    by (vm_compute; reflexivity).
  split; [exact Henv|]. split; [exact Henv'|].
  apply (unrecognized_beans_ignored "http://localhost:50070/jmx" 5000000000
           sampleGot sampleGotRecognized sampleBeans Henv Henv').
Defined.

(** ** Single beans inside a cycle *)

Lemma rowOf_named b n :
  index b "name" = VString n → rowOf b = default [] (lookupTable (VString n)).
Proof. intros H. unfold rowOf. by rewrite H. Qed.

(** Where the samples of a bean land when the beans before it do not
    panic: right after theirs. *)
Lemma Collect_reaches e got pre b post :
  labelless e →
  envelopeOf got = Some {| Beans := pre ++ b :: post |} →
  returns (forRange pre (collectBean e)) →
  ∃ rest,
    sent (Collect e got)
    = upSample e 1%float :: sent (forRange pre (collectBean e))
        ++ sent (collectBean e b) ++ rest
    ∧ (returns (collectBean e b) → rest = sent (forRange post (collectBean e))).
Proof.
  intros Hl Henv Hpre. rewrite (Collect_translates _ _ _ Hl Henv); simpl.
  rewrite forRange_app_sent by done.
  destruct (result_cases (collectBean e b)) as [H|H].
  - exists (sent (forRange post (collectBean e))).
    by rewrite (forRange_cons_returned _ _ _ H).
  - exists []. rewrite (forRange_cons_panicked _ _ _ H); simpl.
    rewrite app_nil_r. split; [done|].
    intros Hret%returns_unit. congruence.
Qed.

(** C6. A [java.lang:type=Runtime] bean with a numeric [Uptime] yields
    one sample, of the metric [namenode_uptime_seconds], whose value is
    that number unchanged; in a cycle it lands right after the samples
    of the beans before it. *)
Theorem uptime_is_passed_through (url : string) (timeout : Z)
    (b : jmxBean) (f : float64) :
  index b "name" = VString "java.lang:type=Runtime" →
  index b "Uptime" = VFloat f →
  fqName (uptime (NewExporter url timeout)) = "namenode_uptime_seconds"
  ∧ collectBean (NewExporter url timeout) b
    = Run [ {| desc := uptime (NewExporter url timeout); valType := GaugeValue;
               val := f; labelValues := [] |} ] (Returned tt)
  ∧ ∀ got pre post,
      envelopeOf got = Some {| Beans := pre ++ b :: post |} →
      returns (forRange pre (collectBean (NewExporter url timeout))) →
      sent (Collect (NewExporter url timeout) got)
      = upSample (NewExporter url timeout) 1%float
          :: sent (forRange pre (collectBean (NewExporter url timeout)))
          ++ {| desc := uptime (NewExporter url timeout); valType := GaugeValue;
                val := f; labelValues := [] |}
          :: sent (forRange post (collectBean (NewExporter url timeout))).
Proof.
  intros Hname Hup.
  assert (Hbean : collectBean (NewExporter url timeout) b
    = Run [ {| desc := uptime (NewExporter url timeout); valType := GaugeValue;
               val := f; labelValues := [] |} ] (Returned tt)).
  { unfold collectBean. rewrite Hname; simpl. by rewrite Hup. }
  split; [reflexivity|]. split; [exact Hbean|].
  intros got pre post Henv Hpre.
  destruct (Collect_reaches _ got pre b post
              (NewExporter_labelless url timeout) Henv Hpre) as (rest & -> & Hrest).
  rewrite Hrest by (rewrite Hbean; by exists tt). by rewrite Hbean.
Qed.

Lemma uptime_is_passed_through_witness :
  ∃ b : jmxBean,
    sampleBeans !! 1%nat = Some b
    ∧ index b "name" = VString "java.lang:type=Runtime"
    ∧ index b "Uptime" = VFloat 1%float
    ∧ collectBean (NewExporter "http://localhost:50070/jmx" 5000000000) b
      = Run [ {| desc := uptime (NewExporter "http://localhost:50070/jmx" 5000000000);
                 valType := GaugeValue; val := 1%float; labelValues := [] |} ]
            (Returned tt).
Proof.
  eexists. split; [reflexivity|]. split; [reflexivity|]. split; [reflexivity|].
  eapply (uptime_is_passed_through "http://localhost:50070/jmx" 5000000000);
    reflexivity.
Defined.

(** C4. A [NameNodeStatus] bean whose [State] is a string yields one
    sample of the state gauge: exactly 1 when the string is ["active"],
    exactly 0 for any other string, the empty one included. *)
Theorem state_is_active_or_not (url : string) (timeout : Z)
    (b : jmxBean) (s : string) :
  index b "name" = VString "Hadoop:service=NameNode,name=NameNodeStatus" →
  index b "State" = VString s →
  ∃ v : float64,
    (s = "active" → v = 1%float)
    ∧ (s ≠ "active" → v = 0%float)
    ∧ collectBean (NewExporter url timeout) b
      = Run [ {| desc := state (NewExporter url timeout); valType := GaugeValue;
                 val := v; labelValues := [] |} ] (Returned tt)
    ∧ ∀ got pre post,
        envelopeOf got = Some {| Beans := pre ++ b :: post |} →
        returns (forRange pre (collectBean (NewExporter url timeout))) →
        sent (Collect (NewExporter url timeout) got)
        = upSample (NewExporter url timeout) 1%float
            :: sent (forRange pre (collectBean (NewExporter url timeout)))
            ++ {| desc := state (NewExporter url timeout); valType := GaugeValue;
                  val := v; labelValues := [] |}
            :: sent (forRange post (collectBean (NewExporter url timeout))).
Proof.
  intros Hname Hstate.
  exists (if String.eqb s "active" then 1%float else 0%float).
  assert (Hbean : collectBean (NewExporter url timeout) b
    = Run [ {| desc := state (NewExporter url timeout); valType := GaugeValue;
               val := if String.eqb s "active" then 1%float else 0%float;
               labelValues := [] |} ] (Returned tt)).
  { unfold collectBean. rewrite Hname; simpl. by rewrite Hstate. }
  split; [intros ->; reflexivity|].
  split; [intros Hne; by destruct (String.eqb_spec s "active")|].
  split; [exact Hbean|].
  intros got pre post Henv Hpre.
  destruct (Collect_reaches _ got pre b post
              (NewExporter_labelless url timeout) Henv Hpre) as (rest & -> & Hrest).
  rewrite Hrest by (rewrite Hbean; by exists tt). by rewrite Hbean.
Qed.

Lemma state_is_active_or_not_witness :
  ∃ (b : jmxBean) (v : float64),
    sampleBeans !! 2%nat = Some b
    ∧ index b "State" = VString "active"
    ∧ v = 1%float
    ∧ collectBean (NewExporter "http://localhost:50070/jmx" 5000000000) b
      = Run [ {| desc := state (NewExporter "http://localhost:50070/jmx" 5000000000);
                 valType := GaugeValue; val := v; labelValues := [] |} ]
            (Returned tt).
Proof.
  eexists.
  edestruct (state_is_active_or_not "http://localhost:50070/jmx" 5000000000)
    as (v & Hactive & _ & Hbean & _);
    [ | | exists v; split; [reflexivity|]; split; [reflexivity|];
          split; [apply Hactive; reflexivity | exact Hbean] ];
    reflexivity.
Defined.

Lemma NameNodeInfo_first_sample url timeout b :
  index b "name" = VString "Hadoop:service=NameNode,name=NameNodeInfo" →
  ∃ rest,
    sent (collectBean (NewExporter url timeout) b)
    = {| desc := safemodeOn (NewExporter url timeout); valType := GaugeValue;
         val := if negb (ifaceEqString (index b "Safemode") "")
                then 1%float else 0%float;
         labelValues := [] |} :: rest.
Proof.
  intros Hname. unfold collectBean. rewrite Hname; simpl.
  unfold mbind, run_bind, bind; simpl. eexists. reflexivity.
Qed.

Lemma Collect_reaches_first url timeout got pre b post x rest :
  envelopeOf got = Some {| Beans := pre ++ b :: post |} →
  returns (forRange pre (collectBean (NewExporter url timeout))) →
  sent (collectBean (NewExporter url timeout) b) = x :: rest →
  ∃ rest',
    sent (Collect (NewExporter url timeout) got)
    = upSample (NewExporter url timeout) 1%float
        :: sent (forRange pre (collectBean (NewExporter url timeout))) ++ x :: rest'.
Proof.
  intros Henv Hpre Hb.
  destruct (Collect_reaches _ got pre b post
              (NewExporter_labelless url timeout) Henv Hpre) as (rest' & -> & _).
  rewrite Hb. exists (rest ++ rest'). done.
Qed.

(** C5. A [NameNodeInfo] bean whose [Safemode] is a string sends, as its
    first sample, the safemode gauge with value 1 when the string is not
    empty, be it all whitespace, and with value 0 when it is empty. *)
Theorem safemode_is_nonempty (url : string) (timeout : Z)
    (b : jmxBean) (s : string) :
  index b "name" = VString "Hadoop:service=NameNode,name=NameNodeInfo" →
  index b "Safemode" = VString s →
  ∃ v : float64,
    (s ≠ "" → v = 1%float)
    ∧ (s = "" → v = 0%float)
    ∧ (∃ rest,
         sent (collectBean (NewExporter url timeout) b)
         = {| desc := safemodeOn (NewExporter url timeout); valType := GaugeValue;
              val := v; labelValues := [] |} :: rest)
    ∧ ∀ got pre post,
        envelopeOf got = Some {| Beans := pre ++ b :: post |} →
        returns (forRange pre (collectBean (NewExporter url timeout))) →
        ∃ rest,
          sent (Collect (NewExporter url timeout) got)
          = upSample (NewExporter url timeout) 1%float
              :: sent (forRange pre (collectBean (NewExporter url timeout)))
              ++ {| desc := safemodeOn (NewExporter url timeout);
                    valType := GaugeValue; val := v; labelValues := [] |} :: rest.
Proof.
  intros Hname Hsafe.
  destruct (NameNodeInfo_first_sample url timeout b Hname) as [rest Hrest].
  rewrite Hsafe in Hrest; simpl in Hrest.
  exists (if negb (String.eqb s "") then 1%float else 0%float).
  split; [intros Hne; by destruct (String.eqb_spec s "")|].
  split; [intros ->; reflexivity|].
  split; [by exists rest|].
  intros got pre post Henv Hpre.
  by apply (Collect_reaches_first url timeout got pre b post _ rest).
Qed.

Lemma safemode_is_nonempty_witness :
  ∃ v : float64,
    index sampleBlankSafemode "Safemode" = VString "   "
    ∧ v = 1%float
    ∧ ∃ rest,
        sent (collectBean (NewExporter "http://localhost:50070/jmx" 5000000000)
                sampleBlankSafemode)
        = {| desc := safemodeOn (NewExporter "http://localhost:50070/jmx" 5000000000);
             valType := GaugeValue; val := v; labelValues := [] |} :: rest.
Proof.
  destruct (safemode_is_nonempty "http://localhost:50070/jmx" 5000000000
              sampleBlankSafemode "   " eq_refl eq_refl)
    as (v & Hon & _ & Hbean & _).
  exists v. split; [reflexivity|]. split; [by apply Hon | exact Hbean].
Defined.

(** ** Panics *)

Lemma coerce_is_Some r v :
  is_Some (coerce r v) ↔ (r = NumericPassthrough → ∃ f, v = VFloat f).
Proof.
  destruct r; simpl.
  - destruct v; split; intros H; eauto;
      solve [ by destruct H | by destruct (H eq_refl) ].
  - split; [done | eauto].
  - split; [done | eauto].
Qed.

(** A bean is translated to its end exactly when its numeric fields are
    numbers. *)
Lemma collectBean_returns_assertable e b :
  labelless e → returns (collectBean e b) ↔ assertable b.
Proof.
  intros Hl. rewrite collectBean_returns. unfold assertable.
  rewrite !Forall_forall. apply forall_proper; intros m.
  apply forall_proper; intros Hm.
  rewrite (sampleOf_labelless e b m Hl Hm), fmap_is_Some.
  apply coerce_is_Some.
Qed.

(** C10. A [NameNodeInfo] bean whose [Safemode] key is absent, or holds
    a value that is not a string, sends as its first sample the safemode
    gauge with value 1; the absent field is no fault: if the numeric
    fields of the bean are numbers, the bean is translated to its end. *)
Theorem safemode_absent_counts_as_on (url : string) (timeout : Z) (b : jmxBean) :
  index b "name" = VString "Hadoop:service=NameNode,name=NameNodeInfo" →
  (b !! "Safemode" = None
   ∨ ∃ v, b !! "Safemode" = Some v ∧ ∀ s, v ≠ VString s) →
  (∃ rest,
     sent (collectBean (NewExporter url timeout) b)
     = {| desc := safemodeOn (NewExporter url timeout); valType := GaugeValue;
          val := 1%float; labelValues := [] |} :: rest)
  ∧ (assertable b → returns (collectBean (NewExporter url timeout) b))
  ∧ ∀ got pre post,
      envelopeOf got = Some {| Beans := pre ++ b :: post |} →
      returns (forRange pre (collectBean (NewExporter url timeout))) →
      ∃ rest,
        sent (Collect (NewExporter url timeout) got)
        = upSample (NewExporter url timeout) 1%float
            :: sent (forRange pre (collectBean (NewExporter url timeout)))
            ++ {| desc := safemodeOn (NewExporter url timeout);
                  valType := GaugeValue; val := 1%float; labelValues := [] |} :: rest.
Proof.
  intros Hname Hsafe.
  destruct (NameNodeInfo_first_sample url timeout b Hname) as [rest Hrest].
  assert (Hne : ifaceEqString (index b "Safemode") "" = false).
  { unfold index. destruct Hsafe as [->|(v & -> & Hv)]; simpl; [done|].
    destruct v; try done. by destruct (Hv s). }
  rewrite Hne in Hrest; simpl in Hrest.
  split; [by exists rest|]. split.
  - intros Hok. by apply collectBean_returns_assertable;
      [apply NewExporter_labelless|].
  - intros got pre post Henv Hpre.
    by apply (Collect_reaches_first url timeout got pre b post _ rest).
Qed.

Lemma safemode_absent_counts_as_on_witness :
  sampleNoSafemode !! "Safemode" = None
  ∧ ∃ rest,
      sent (collectBean (NewExporter "http://localhost:50070/jmx" 5000000000)
              sampleNoSafemode)
      = {| desc := safemodeOn (NewExporter "http://localhost:50070/jmx" 5000000000);
           valType := GaugeValue; val := 1%float; labelValues := [] |} :: rest.
Proof.
  split; [reflexivity|].
  apply (safemode_absent_counts_as_on "http://localhost:50070/jmx" 5000000000
           sampleNoSafemode eq_refl (or_introl eq_refl)).
Defined.

(** C3, as amended. A cycle that reaches translation runs to its end
    exactly when every numeric field of every recognized bean is a
    number; otherwise [Collect] panics, and nothing in it recovers. A
    string field that is absent or of another type never panics. *)
Theorem Collect_returns_iff_numeric_fields (url : string) (timeout : Z)
    (got : getResult) (beans : list jmxBean) :
  envelopeOf got = Some {| Beans := beans |} →
  (returns (Collect (NewExporter url timeout) got) ↔ Forall assertable beans)
  ∧ (¬ Forall assertable beans →
     result (Collect (NewExporter url timeout) got) = Panicked).
Proof.
  intros Henv. pose proof (NewExporter_labelless url timeout) as Hl.
  assert (Hiff : returns (Collect (NewExporter url timeout) got)
                 ↔ Forall assertable beans).
  { rewrite (Collect_translates _ _ _ Hl Henv). simpl.
    rewrite !returns_unit; simpl. rewrite <- returns_unit, forRange_returns.
    apply Forall_proper; [|done].
    intros b. by apply collectBean_returns_assertable. }
  split; [exact Hiff|]. intros Hno.
  destruct (result_cases (Collect (NewExporter url timeout) got)) as [H|H];
    [|done].
  exfalso. apply Hno, Hiff. by exists tt.
Qed.

Lemma Collect_returns_iff_numeric_fields_witness :
  envelopeOf sampleGot = Some {| Beans := sampleBeans |}
  ∧ (returns (Collect (NewExporter "http://localhost:50070/jmx" 5000000000) sampleGot)
     ↔ Forall assertable sampleBeans).
Proof.
  split; [reflexivity|].
  apply (Collect_returns_iff_numeric_fields "http://localhost:50070/jmx" 5000000000
           sampleGot sampleBeans).
  reflexivity.
Defined.

(** C3, as stated, fails: a [Runtime] bean without [Uptime] is a
    recognized bean with a coercion fault, and on it [Collect] panics
    right after the [up] sample. *)
Lemma missing_uptime_panics :
  ∃ b : jmxBean,
    envelopeOf sampleNoUptime = Some {| Beans := [b] |}
    ∧ faulty b
    ∧ Collect (NewExporter "http://localhost:50070/jmx" 5000000000) sampleNoUptime
      = Run [upSample (NewExporter "http://localhost:50070/jmx" 5000000000) 1%float]
            Panicked
    ∧ ¬ returns (Collect (NewExporter "http://localhost:50070/jmx" 5000000000)
                   sampleNoUptime).
Proof.
  eexists. split; [reflexivity|]. split; [|split].
  - split; [reflexivity|]. unfold populated.
    intros H. vm_compute in H.
    apply Forall_cons in H as [[f Hf] _]. discriminate Hf.
  - reflexivity.
  - intros [a Ha]. discriminate Ha.
Qed.

(** ** The full sample set *)

Lemma wellTypedb_sound r v : wellTypedb r v = true → wellTyped r v.
Proof. destruct r, v; simpl; try discriminate; eauto. Qed.

Lemma populatedb_sound beans :
  forallb populatedb beans = true → Forall populated beans.
Proof.
  rewrite forallb_forall, Forall_forall. intros H b Hb%list_elem_of_In.
  specialize (H b Hb). unfold populatedb in H. rewrite forallb_forall in H.
  apply Forall_forall. intros m Hm%list_elem_of_In.
  by apply wellTypedb_sound, H.
Qed.

Lemma populated_assertable b : populated b → assertable b.
Proof.
  unfold populated, assertable. intros H.
  eapply Forall_impl; [exact H|].
  intros m Hm Hrule; simpl in *. by rewrite Hrule in Hm.
Qed.

Lemma sampleOf_assertable e b m :
  labelless e → m ∈ rowOf b → assertable b →
  ∃ x, sampleOf e b m = Some x
       ∧ desc x = target m e ∧ valType x = kind m
       ∧ coerce (rule m) (index b (source m)) = Some (val x).
Proof.
  intros Hl Hm Hok. rewrite (sampleOf_labelless e b m Hl Hm).
  unfold assertable in Hok. rewrite Forall_forall in Hok.
  destruct (proj2 (coerce_is_Some _ _) (Hok m Hm)) as [f Hf].
  rewrite Hf; simpl. eauto.
Qed.

Lemma row_descs e b ms :
  Forall (λ m, is_Some (sampleOf e b m)) ms →
  desc <$> omap (sampleOf e b) ms = (λ m, target m e) <$> ms.
Proof.
  induction 1 as [|m ms [x Hx] _ IH]; [done|]. csimpl. rewrite Hx; csimpl.
  rewrite IH. f_equal. unfold sampleOf in Hx.
  destruct (coerce _ _); simpl in Hx; [|done].
  destruct (_ =? _)%nat; [|done]. by injection Hx as <-.
Qed.

Lemma beanSamples_descs e b :
  returns (collectBean e b) →
  desc <$> beanSamples e b = (λ m, target m e) <$> rowOf b.
Proof. intros H. apply row_descs. by apply collectBean_returns. Qed.

(** Beans that are translated to their end feed, name by name, the
    descriptors of their rows. *)
Lemma beans_descs e beans :
  Forall (λ b, returns (collectBean e b)) beans →
  desc <$> (beans ≫= beanSamples e) = beanNames beans ≫= descsOfName e.
Proof.
  induction 1 as [|b beans Hb _ IH]; [done|].
  rewrite bind_cons, fmap_app, IH, (beanSamples_descs e b Hb).
  unfold beanNames at 2. csimpl. fold (beanNames beans).
  destruct (recognized b) eqn:Hrec.
  - apply recognized_name in Hrec as (n & _ & Hn). rewrite Hn; csimpl.
    by rewrite (rowOf_named b n Hn).
  - rewrite (rowOf_unrecognized b Hrec). by destruct (index b "name").
Qed.

(** There are six recognized names, all different. *)
Lemma recognizedNames_distinct :
  length recognizedNames = 6%nat ∧ NoDup recognizedNames.
Proof.
  split; [reflexivity|].
  apply (bool_decide_unpack _). vm_compute. exact I.
Qed.

(** The rows of the table feed each descriptor of [Describe] but [up],
    once. *)
Lemma table_descs e :
  up e :: (recognizedNames ≫= descsOfName e) ≡ₚ sent (Describe e).
Proof.
  unfold recognizedNames, descsOfName; simpl. solve_Permutation.
Qed.

(** C1, as amended. When every recognized name is borne by exactly one
    bean of the array and every mapped field of these beans holds a value
    of the expected type, the cycle runs to its end and samples each
    announced metric exactly once: the [up] gauge and the 38 fields. Each
    field sample carries the number its rule makes of the field, for a
    numeric field the number itself. *)
Theorem full_sample_set (url : string) (timeout : Z)
    (got : getResult) (beans : list jmxBean) :
  envelopeOf got = Some {| Beans := beans |} →
  beanNames beans ≡ₚ recognizedNames →
  Forall populated beans →
  returns (Collect (NewExporter url timeout) got)
  ∧ sent (Collect (NewExporter url timeout) got)
    = upSample (NewExporter url timeout) 1%float
        :: beans ≫= beanSamples (NewExporter url timeout)
  ∧ desc <$> sent (Collect (NewExporter url timeout) got)
    ≡ₚ sent (Describe (NewExporter url timeout))
  ∧ length (sent (Collect (NewExporter url timeout) got)) = 39%nat
  ∧ ∀ b m, b ∈ beans → m ∈ rowOf b →
      ∃ x, x ∈ sent (Collect (NewExporter url timeout) got)
           ∧ desc x = target m (NewExporter url timeout)
           ∧ valType x = kind m
           ∧ coerce (rule m) (index b (source m)) = Some (val x)
           ∧ (rule m = NumericPassthrough →
              index b (source m) = VFloat (val x)).
Proof.
  intros Henv Hnames Hpop.
  pose proof (NewExporter_labelless url timeout) as Hl.
  set (e := NewExporter url timeout) in *.
  assert (Hok : Forall assertable beans).
  { eapply Forall_impl; [exact Hpop|]. apply populated_assertable. }
  assert (Hret : Forall (λ b, returns (collectBean e b)) beans).
  { eapply Forall_impl; [exact Hok|]. intros b.
    by apply collectBean_returns_assertable. }
  rewrite (Collect_translates _ _ _ Hl Henv); simpl.
  rewrite beans_sent_returns by (by apply forRange_returns).
  assert (Hperm : desc <$> (upSample e 1%float :: beans ≫= beanSamples e)
                  ≡ₚ sent (Describe e)).
  { rewrite fmap_cons, (beans_descs e beans Hret), Hnames. apply table_descs. }
  split; [by apply forRange_returns|]. split; [done|]. split; [exact Hperm|].
  split.
  - apply Permutation_length in Hperm. by rewrite length_fmap in Hperm.
  - intros b m Hb Hm.
    rewrite Forall_forall in Hok.
    destruct (sampleOf_assertable e b m Hl Hm (Hok b Hb))
      as (x & Hx & Hdesc & Hkind & Hval).
    exists x. split; [|split; [done|split; [done|split; [done|]]]].
    + apply elem_of_cons. right. apply list_elem_of_bind. exists b.
      split; [|done]. apply list_elem_of_omap. eauto.
    + intros Hrule. rewrite Hrule in Hval; simpl in Hval.
      destruct (index b (source m)); try done. by injection Hval as ->.
Qed.

Lemma full_sample_set_witness :
  envelopeOf sampleGot = Some {| Beans := sampleBeans |}
  ∧ beanNames sampleBeans ≡ₚ recognizedNames
  ∧ Forall populated sampleBeans
  ∧ returns (Collect (NewExporter "http://localhost:50070/jmx" 5000000000) sampleGot)
  ∧ desc <$> sent (Collect (NewExporter "http://localhost:50070/jmx" 5000000000) sampleGot)
    ≡ₚ sent (Describe (NewExporter "http://localhost:50070/jmx" 5000000000))
  ∧ length (sent (Collect (NewExporter "http://localhost:50070/jmx" 5000000000) sampleGot))
    = 39%nat.
Proof.
  assert (Henv : envelopeOf sampleGot = Some {| Beans := sampleBeans |})
    by reflexivity.
  assert (Hnames : beanNames sampleBeans ≡ₚ recognizedNames)
    by (vm_compute; reflexivity).
  assert (Hpop : Forall populated sampleBeans)
    by (apply populatedb_sound; vm_compute; reflexivity).
  destruct (full_sample_set "http://localhost:50070/jmx" 5000000000
              sampleGot sampleBeans Henv Hnames Hpop)
    as (Hret & _ & Hperm & Hlen & _).
  repeat split; assumption.
Defined.

(** C1, as stated, fails: with a second, equally well populated
    [Runtime] bean in the array every recognized name is present and
    every mapped field is populated, yet the cycle sends 40 samples, two
    of them for the uptime gauge. *)
Lemma duplicate_bean_sampled_twice :
  ∃ beans : list jmxBean,
    envelopeOf sampleTwoRuntime = Some {| Beans := beans |}
    ∧ recognizedNames ⊆ beanNames beans
    ∧ Forall populated beans
    ∧ length (sent (Collect (NewExporter "http://localhost:50070/jmx" 5000000000)
                      sampleTwoRuntime)) = 40%nat
    ∧ sent (Collect (NewExporter "http://localhost:50070/jmx" 5000000000)
              sampleTwoRuntime) !! 1%nat
      = Some {| desc := uptime (NewExporter "http://localhost:50070/jmx" 5000000000);
                valType := GaugeValue; val := 2%float; labelValues := [] |}
    ∧ sent (Collect (NewExporter "http://localhost:50070/jmx" 5000000000)
              sampleTwoRuntime) !! 2%nat
      = Some {| desc := uptime (NewExporter "http://localhost:50070/jmx" 5000000000);
                valType := GaugeValue; val := 1%float; labelValues := [] |}
    ∧ ¬ (desc <$> sent (Collect (NewExporter "http://localhost:50070/jmx" 5000000000)
                          sampleTwoRuntime)
         ≡ₚ sent (Describe (NewExporter "http://localhost:50070/jmx" 5000000000))).
Proof.
  eexists. split; [reflexivity|]. split; [|split; [|split; [|split; [|split]]]].
  - intros n Hn%list_elem_of_In. apply list_elem_of_In.
    vm_compute in Hn. vm_compute. tauto.
  - apply populatedb_sound. vm_compute. reflexivity.
  - vm_compute. reflexivity.
  - vm_compute. reflexivity.
  - vm_compute. reflexivity.
  - intros Hperm. apply Permutation_length in Hperm.
    rewrite length_fmap in Hperm. vm_compute in Hperm. discriminate Hperm.
Qed.

(** * Further properties of the exporter *)

(** ** Descriptors *)

(** X1. [Describe] sends 39 descriptors and returns; their names are
    pairwise different, and each is one the registry accepts: a name in
    the [namenode] namespace, a help text, no labels. *)
Theorem descriptors_registrable (url : string) (timeout : Z) :
  result (Describe (NewExporter url timeout)) = Returned tt
  ∧ length (sent (Describe (NewExporter url timeout))) = 39%nat
  ∧ NoDup (fqName <$> sent (Describe (NewExporter url timeout)))
  ∧ Forall registrable (sent (Describe (NewExporter url timeout))).
Proof.
  split; [reflexivity|]. split; [reflexivity|]. split.
  - apply (bool_decide_unpack _). vm_compute. exact I.
  - unfold registrable; simpl. repeat constructor; discriminate.
Qed.

(** ** Where a sample comes from *)

Lemma sampleOf_Some e b m x :
  sampleOf e b m = Some x →
  desc x = target m e ∧ valType x = kind m ∧ labelValues x = []
  ∧ coerce (rule m) (index b (source m)) = Some (val x).
Proof.
  unfold sampleOf. destruct (coerce _ _) as [f|]; simpl; [|done].
  destruct (_ =? _)%nat; [|done]. by intros [= <-].
Qed.

Lemma rowOf_table b m :
  m ∈ rowOf b →
  ∃ n row, (n, row) ∈ mappingTable ∧ m ∈ row ∧ index b "name" = VString n.
Proof.
  intros Hm. destruct (rowOf_cases b) as [[_ Hnil]|(n & Hrow & Hn)].
  - rewrite Hnil in Hm. by apply elem_of_nil in Hm.
  - eauto.
Qed.

(** What holds of every entry of the table holds of every entry of the
    row of a bean. *)
Lemma table_forall (P : mapping → Prop) b m :
  Forall (λ row, Forall P row.2) mappingTable → m ∈ rowOf b → P m.
Proof.
  intros Hall Hm. destruct (rowOf_table b m Hm) as (n & row & Hrow & Hin & _).
  rewrite Forall_forall in Hall. specialize (Hall _ Hrow). simpl in Hall.
  rewrite Forall_forall in Hall. by apply Hall.
Qed.

(** A cycle sends the [up] sample and then only samples that entries of
    the table yield on beans of the envelope. *)
Lemma Collect_sent_split e got :
  labelless e →
  ∃ rest,
    sent (Collect e got)
    = upSample e (match envelopeOf got with
                  | Some _ => 1%float
                  | None => 0%float
                  end) :: rest
    ∧ (envelopeOf got = None → rest = [])
    ∧ ∀ x, x ∈ rest →
        ∃ envelope b m,
          envelopeOf got = Some envelope ∧ b ∈ Beans envelope
          ∧ m ∈ rowOf b ∧ sampleOf e b m = Some x.
Proof.
  intros Hl. destruct (envelopeOf got) as [envelope|] eqn:Henv.
  - rewrite (Collect_translates e got envelope Hl Henv); simpl.
    eexists. split; [reflexivity|]. split; [done|].
    intros x Hx.
    pose proof (beans_sent_prefix e (Beans envelope)) as Hpre.
    apply (elem_of_prefix _ _ _ Hx) in Hpre.
    apply list_elem_of_bind in Hpre as (b & Hxb & Hb).
    unfold beanSamples in Hxb. apply list_elem_of_omap in Hxb as (m & Hm & Hs).
    exists envelope, b, m. done.
  - rewrite (Collect_fails e got Hl Henv); simpl.
    exists []. split; [done|]. split; [done|].
    intros x Hx. by apply elem_of_nil in Hx.
Qed.

(** ** Value types *)

Lemma table_value_types url timeout :
  Forall (λ row, Forall (λ m,
    kind m = if bool_decide (fqName (target m (NewExporter url timeout))
                             ∈ logCounterNames)
             then CounterValue else GaugeValue) row.2) mappingTable.
Proof.
  unfold mappingTable, numeric.
  repeat (constructor; simpl); vm_compute; reflexivity.
Qed.

(** X2. In every cycle each sample but those of the four log metrics is
    a gauge, the samples of the four log metrics are counters, and no
    sample has label values. *)
Theorem counters_are_the_log_metrics (url : string) (timeout : Z)
    (got : getResult) :
  Forall (λ x,
      labelValues x = []
      ∧ valType x = if bool_decide (fqName (desc x) ∈ logCounterNames)
                    then CounterValue else GaugeValue)
    (sent (Collect (NewExporter url timeout) got)).
Proof.
  destruct (Collect_sent_split _ got (NewExporter_labelless url timeout))
    as (rest & -> & _ & Hrest).
  apply Forall_cons. split; [done|].
  apply Forall_forall. intros x Hx.
  destruct (Hrest x Hx) as (envelope & b & m & _ & _ & Hm & Hs).
  apply sampleOf_Some in Hs as (Hd & Hk & Hl & _).
  split; [done|]. rewrite Hd, Hk.
  apply (table_forall _ b m (table_value_types url timeout) Hm).
Qed.

(** ** The reachability sample *)

Lemma table_not_up url timeout :
  Forall (λ row, Forall (λ m,
    fqName (target m (NewExporter url timeout)) ≠ "namenode_up") row.2)
    mappingTable.
Proof.
  unfold mappingTable, numeric.
  repeat (constructor; simpl); discriminate.
Qed.

(** X3. Every cycle sends exactly one [up] sample, and sends it first:
    with value 1 when the fetch gave status 200 and the body decoded,
    with value 0 otherwise, in which case nothing follows. No sample
    after the first carries the [up] descriptor. *)
Theorem up_once_and_first (url : string) (timeout : Z) (got : getResult) :
  ∃ rest,
    sent (Collect (NewExporter url timeout) got)
    = upSample (NewExporter url timeout)
        (match envelopeOf got with
         | Some _ => 1%float
         | None => 0%float
         end) :: rest
    ∧ (envelopeOf got = None → rest = [])
    ∧ Forall (λ x, desc x ≠ up (NewExporter url timeout)) rest.
Proof.
  destruct (Collect_sent_split _ got (NewExporter_labelless url timeout))
    as (rest & Hsent & Hnone & Hrest).
  exists rest. split; [exact Hsent|]. split; [exact Hnone|].
  apply Forall_forall. intros x Hx.
  destruct (Hrest x Hx) as (envelope & b & m & _ & _ & Hm & Hs).
  apply sampleOf_Some in Hs as (Hd & _). rewrite Hd. intros Hup.
  apply (table_forall _ b m (table_not_up url timeout) Hm).
  by rewrite Hup.
Qed.

(** ** Truth values *)

Lemma table_booleans url timeout :
  Forall (λ row, Forall (λ m,
    fqName (target m (NewExporter url timeout)) ∈ booleanGaugeNames →
    rule m ≠ NumericPassthrough) row.2) mappingTable.
Proof.
  unfold mappingTable, numeric.
  repeat (constructor; simpl);
    first [ discriminate
          | intros Hin%list_elem_of_In; vm_compute in Hin; exfalso;
            repeat (destruct Hin as [Hin|Hin]; [discriminate Hin|]);
            exact Hin ].
Qed.

(** X4. In every cycle the samples of the four truth-valued gauges,
    [up], [state], [fs_operational] and [safemode_on], have value 0 or
    1, whatever the document holds. *)
Theorem truth_gauges_are_0_or_1 (url : string) (timeout : Z) (got : getResult) :
  Forall (λ x,
      fqName (desc x) ∈ booleanGaugeNames →
      val x = 0%float ∨ val x = 1%float)
    (sent (Collect (NewExporter url timeout) got)).
Proof.
  destruct (Collect_sent_split _ got (NewExporter_labelless url timeout))
    as (rest & -> & _ & Hrest).
  apply Forall_cons. split.
  { intros _. simpl. destruct (envelopeOf got); auto. }
  apply Forall_forall. intros x Hx Hname.
  destruct (Hrest x Hx) as (envelope & b & m & _ & _ & Hm & Hs).
  apply sampleOf_Some in Hs as (Hd & _ & _ & Hv). rewrite Hd in Hname.
  pose proof (table_forall _ b m (table_booleans url timeout) Hm Hname) as Hrule.
  destruct (rule m); simpl in Hv; [done| |];
    injection Hv as <-; by destruct (ifaceEqString _ _); auto.
Qed.

(** ** The two equality gauges *)

(** X5. A [NameNodeStatus] bean always yields exactly one sample, of the
    state gauge, and never panics: the value is 1 when [State] is the
    string ["active"] and 0 in every other case, a [State] that is
    absent or not a string included. *)
Theorem state_defaults_to_standby (url : string) (timeout : Z) (b : jmxBean) :
  index b "name" = VString "Hadoop:service=NameNode,name=NameNodeStatus" →
  ∃ v : float64,
    collectBean (NewExporter url timeout) b
    = Run [ {| desc := state (NewExporter url timeout); valType := GaugeValue;
               val := v; labelValues := [] |} ] (Returned tt)
    ∧ (b !! "State" = Some (VString "active") → v = 1%float)
    ∧ (b !! "State" ≠ Some (VString "active") → v = 0%float).
Proof.
  intros Hname.
  exists (if ifaceEqString (index b "State") "active" then 1%float else 0%float).
  split; [|split].
  - unfold collectBean. rewrite Hname; simpl. reflexivity.
  - unfold index. by intros ->.
  - intros Hne.
    destruct (ifaceEqString (index b "State") "active") eqn:Heq; [|done].
    apply ifaceEqString_true in Heq. unfold index in Heq.
    destruct (b !! "State") as [w|]; simpl in Heq; [|done].
    by subst w.
Qed.

Lemma state_defaults_to_standby_witness :
  ∃ v : float64,
    collectBean (NewExporter "http://localhost:50070/jmx" 5000000000)
      (objectInterface
         [ ("name", JString "Hadoop:service=NameNode,name=NameNodeStatus") ])
    = Run [ {| desc := state (NewExporter "http://localhost:50070/jmx" 5000000000);
               valType := GaugeValue; val := v; labelValues := [] |} ]
          (Returned tt)
    ∧ v = 0%float.
Proof.
  destruct (state_defaults_to_standby "http://localhost:50070/jmx" 5000000000
              (objectInterface
                 [ ("name", JString "Hadoop:service=NameNode,name=NameNodeStatus") ])
              eq_refl) as (v & Hbean & _ & Hzero).
  exists v. split; [exact Hbean|]. apply Hzero. vm_compute. discriminate.
Defined.

(** X6. A [FSNamesystemState] bean sends the [fs_operational] gauge
    first and never panics on it: the value is 1 when [FSState] is the
    string ["Operational"] and 0 in every other case, a missing
    [FSState] included. When the six numeric fields of the bean are
    numbers it sends seven samples and returns. *)
Theorem fs_operational_defaults_to_0 (url : string) (timeout : Z) (b : jmxBean) :
  index b "name" = VString "Hadoop:service=NameNode,name=FSNamesystemState" →
  ∃ (v : float64) rest,
    sent (collectBean (NewExporter url timeout) b)
    = {| desc := fsOperational (NewExporter url timeout); valType := GaugeValue;
         val := v; labelValues := [] |} :: rest
    ∧ (b !! "FSState" = Some (VString "Operational") → v = 1%float)
    ∧ (b !! "FSState" ≠ Some (VString "Operational") → v = 0%float)
    ∧ (assertable b →
       returns (collectBean (NewExporter url timeout) b) ∧ length rest = 6%nat).
Proof.
  intros Hname.
  exists (if ifaceEqString (index b "FSState") "Operational"
          then 1%float else 0%float).
  assert (Hsent : ∃ rest,
    sent (collectBean (NewExporter url timeout) b)
    = {| desc := fsOperational (NewExporter url timeout); valType := GaugeValue;
         val := if ifaceEqString (index b "FSState") "Operational"
                then 1%float else 0%float;
         labelValues := [] |} :: rest).
  { unfold collectBean. rewrite Hname; simpl.
    unfold mbind, run_bind, bind; simpl. eexists. reflexivity. }
  destruct Hsent as [rest Hsent]. exists rest.
  split; [exact Hsent|]. split; [|split].
  - unfold index. by intros ->.
  - intros Hne.
    destruct (ifaceEqString (index b "FSState") "Operational") eqn:Heq; [|done].
    apply ifaceEqString_true in Heq. unfold index in Heq.
    destruct (b !! "FSState") as [w|]; simpl in Heq; [|done].
    by subst w.
  - intros Hok.
    assert (Hret : returns (collectBean (NewExporter url timeout) b)).
    { apply collectBean_returns_assertable; [apply NewExporter_labelless|done]. }
    split; [exact Hret|].
    pose proof (collectBean_sent_returns _ b Hret) as Hall.
    apply (f_equal (fmap desc)) in Hall.
    rewrite (beanSamples_descs _ b Hret), (rowOf_named b _ Hname) in Hall.
    apply (f_equal length) in Hall. rewrite Hsent in Hall.
    rewrite !length_fmap in Hall. simpl in Hall. by injection Hall.
Qed.

Lemma fs_operational_defaults_to_0_witness :
  ∃ (v : float64) rest,
    sent (collectBean (NewExporter "http://localhost:50070/jmx" 5000000000)
            (objectInterface
               [ ("name", JString "Hadoop:service=NameNode,name=FSNamesystemState") ]))
    = {| desc := fsOperational (NewExporter "http://localhost:50070/jmx" 5000000000);
         valType := GaugeValue; val := v; labelValues := [] |} :: rest
    ∧ v = 0%float.
Proof.
  destruct (fs_operational_defaults_to_0 "http://localhost:50070/jmx" 5000000000
              (objectInterface
                 [ ("name", JString "Hadoop:service=NameNode,name=FSNamesystemState") ])
              eq_refl) as (v & rest & Hbean & _ & Hzero & _).
  exists v, rest. split; [exact Hbean|]. apply Hzero. vm_compute. discriminate.
Defined.

(** ** What a panic leaves behind *)

Lemma run_eq {T A : Type} (r : run T A) s o :
  sent r = s → result r = o → r = Run s o.
Proof. destruct r; simpl; by intros -> ->. Qed.

Lemma assertableb_sound beans :
  forallb assertableb beans = true → Forall assertable beans.
Proof.
  rewrite forallb_forall, Forall_forall. intros H b Hb%list_elem_of_In.
  specialize (H b Hb). unfold assertableb in H. rewrite forallb_forall in H.
  apply Forall_forall. intros m Hm%list_elem_of_In Hrule.
  specialize (H m Hm). rewrite Hrule in H.
  destruct (index b (source m)); try discriminate. eauto.
Qed.

(** A row that faults at an entry sends what the entries before it
    yield, and panics. *)
Lemma row_cut e b ms1 m ms2 :
  Forall (λ m', is_Some (sampleOf e b m')) ms1 →
  sampleOf e b m = None →
  forRange (ms1 ++ m :: ms2) (emit e b)
  = Run (omap (sampleOf e b) ms1) Panicked.
Proof.
  intros Hok Hm.
  assert (Hret : returns (forRange ms1 (emit e b))) by (by apply row_returns).
  assert (Hpanic : forRange (m :: ms2) (emit e b) = Run [] Panicked).
  { rewrite forRange_cons_panicked; unfold emit; by rewrite Hm. }
  apply run_eq.
  - rewrite forRange_app_sent, Hpanic, (row_sent_returns e b ms1 Hret) by done.
    simpl. by rewrite app_nil_r.
  - by rewrite forRange_app_result, Hpanic.
Qed.

(** X7. When the first fault of a cycle is a numeric field that is
    absent or not a number, [Collect] panics having sent exactly the
    [up] sample with value 1, the samples of the beans before the faulty
    one, and the samples of the fields that precede the faulty field in
    its bean; nothing of the rest of the bean nor of the beans after it
    is sent. *)
Theorem panic_cuts_at_first_fault (url : string) (timeout : Z)
    (got : getResult) (pre : list jmxBean) (b : jmxBean) (post : list jmxBean)
    (ms1 : list mapping) (m : mapping) (ms2 : list mapping) :
  envelopeOf got = Some {| Beans := pre ++ b :: post |} →
  Forall assertable pre →
  rowOf b = ms1 ++ m :: ms2 →
  Forall (λ m', rule m' = NumericPassthrough →
                ∃ f, index b (source m') = VFloat f) ms1 →
  rule m = NumericPassthrough →
  (∀ f, index b (source m) ≠ VFloat f) →
  Collect (NewExporter url timeout) got
  = Run (upSample (NewExporter url timeout) 1%float
           :: (pre ≫= beanSamples (NewExporter url timeout))
           ++ omap (sampleOf (NewExporter url timeout) b) ms1)
        Panicked.
Proof.
  intros Henv Hpre Hrow Hms1 Hrule Hfault.
  pose proof (NewExporter_labelless url timeout) as Hl.
  set (e := NewExporter url timeout) in *.
  assert (Hpre' : returns (forRange pre (collectBean e))).
  { apply forRange_returns. eapply Forall_impl; [exact Hpre|].
    intros b'. by apply collectBean_returns_assertable. }
  assert (Hm : sampleOf e b m = None).
  { unfold sampleOf. rewrite Hrule; simpl.
    destruct (index b (source m)) eqn:Hv; try done. by destruct (Hfault f). }
  assert (Hok : Forall (λ m', is_Some (sampleOf e b m')) ms1).
  { apply Forall_forall. intros m' Hm'.
    assert (Hin : m' ∈ rowOf b) by (rewrite Hrow; set_solver).
    rewrite (sampleOf_labelless e b m' Hl Hin), fmap_is_Some.
    apply coerce_is_Some. rewrite Forall_forall in Hms1. by apply Hms1. }
  assert (Hb : collectBean e b = Run (omap (sampleOf e b) ms1) Panicked).
  { rewrite collectBean_table, Hrow. by apply row_cut. }
  rewrite (Collect_translates e got _ Hl Henv); simpl.
  rewrite forRange_app_sent, forRange_app_result by done.
  rewrite forRange_cons_panicked by (by rewrite Hb).
  rewrite Hb; simpl. by rewrite (beans_sent_returns e pre Hpre').
Qed.

Lemma panic_cuts_at_first_fault_witness :
  Collect (NewExporter "http://localhost:50070/jmx" 5000000000) samplePartial
  = Run [ upSample (NewExporter "http://localhost:50070/jmx" 5000000000) 1%float;
          {| desc := uptime (NewExporter "http://localhost:50070/jmx" 5000000000);
             valType := GaugeValue; val := 42%float; labelValues := [] |};
          {| desc := safemodeOn (NewExporter "http://localhost:50070/jmx" 5000000000);
             valType := GaugeValue; val := 0%float; labelValues := [] |};
          {| desc := dfsPercentUsed (NewExporter "http://localhost:50070/jmx" 5000000000);
             valType := GaugeValue; val := 7%float; labelValues := [] |} ]
        Panicked.
Proof.
  assert (Hpre : Forall assertable [default ∅ (unmarshalBean sampleRuntime)])
    by (apply assertableb_sound; vm_compute; reflexivity).
  assert (Hrow : rowOf (default ∅ (unmarshalBean sampleShortInfo))
                 = [ {| source := "Safemode"; target := safemodeOn;
                        kind := GaugeValue; rule := PresenceBoolean |};
                     numeric "PercentUsed" dfsPercentUsed GaugeValue ]
                   ++ numeric "PercentRemaining" dfsPercentRemaining GaugeValue
                   :: [ numeric "NonDfsUsedSpace" dfsNonDfsBytesUsed GaugeValue;
                        numeric "BlockPoolUsedSpace" dfsBlockPoolBytesUsed GaugeValue;
                        numeric "PercentBlockPoolUsed" dfsBlockPoolPercentUsed
                          GaugeValue ])
    by reflexivity.
  refine (panic_cuts_at_first_fault "http://localhost:50070/jmx" 5000000000
            samplePartial
            [default ∅ (unmarshalBean sampleRuntime)]
            (default ∅ (unmarshalBean sampleShortInfo))
            [default ∅ (unmarshalBean sampleStandby)]
            _ _ _ _ Hpre Hrow _ eq_refl _).
  - reflexivity.
  - repeat constructor; [discriminate | intros _; by eexists].
  - intros f Hf. vm_compute in Hf. discriminate Hf.
Defined.

(** ** From fields to metric names *)

Lemma surfaceOf_NewExporter url timeout :
  surfaceOf (NewExporter url timeout) = exportedNumeric.
Proof. vm_compute. reflexivity. Qed.

(** The names of the table are different, so a name selects its row. *)
Lemma lookupTable_row n row :
  (n, row) ∈ mappingTable → lookupTable (VString n) = Some row.
Proof.
  unfold mappingTable. rewrite !elem_of_cons, elem_of_nil.
  intros H; repeat (destruct H as [H|H]; [by injection H as -> ->|]); done.
Qed.

Lemma elem_of_surfaceOf e n field metric vt :
  (n, field, metric, vt) ∈ surfaceOf e ↔
  ∃ row m, (n, row) ∈ mappingTable ∧ m ∈ row
           ∧ rule m = NumericPassthrough ∧ source m = field
           ∧ fqName (target m e) = metric ∧ kind m = vt.
Proof.
  unfold surfaceOf. rewrite list_elem_of_bind. split.
  - intros ([n' row] & Hin & Hrow). simpl in Hin.
    apply list_elem_of_bind in Hin as (m & Hin & Hm).
    destruct (rule m) eqn:Hrule; try by apply elem_of_nil in Hin.
    apply list_elem_of_singleton in Hin. injection Hin as -> -> -> ->.
    exists row, m. done.
  - intros (row & m & Hrow & Hm & Hrule & <- & <- & <-).
    exists (n, row). split; [|done]. simpl.
    apply list_elem_of_bind. exists m. split; [|done].
    rewrite Hrule. by apply list_elem_of_singleton.
Qed.

(** X8. Each of the 35 numeric fields of the exported surface reaches
    its metric: when a bean bears the listed name, holds a number in the
    listed field and has numbers in its other numeric fields, it sends a
    sample with the listed metric name and value type whose value is
    that number. *)
Theorem numeric_field_reaches_metric (url : string) (timeout : Z)
    (b : jmxBean) (n field metric : string) (vt : ValueType) (f : float64) :
  (n, field, metric, vt) ∈ exportedNumeric →
  index b "name" = VString n →
  index b field = VFloat f →
  assertable b →
  ∃ x, x ∈ sent (collectBean (NewExporter url timeout) b)
       ∧ fqName (desc x) = metric ∧ valType x = vt ∧ val x = f.
Proof.
  intros Hin Hname Hfield Hok.
  pose proof (NewExporter_labelless url timeout) as Hl.
  rewrite <- (surfaceOf_NewExporter url timeout) in Hin.
  apply elem_of_surfaceOf in Hin
    as (row & m & Hrow & Hm & Hrule & Hsrc & Hmetric & Hkind).
  assert (Hrowb : rowOf b = row).
  { by rewrite (rowOf_named b n Hname), (lookupTable_row n row Hrow). }
  rewrite <- Hrowb in Hm.
  destruct (sampleOf_assertable _ b m Hl Hm Hok) as (x & Hx & Hd & Hk & Hv).
  exists x. split; [|split; [|split]].
  - rewrite collectBean_sent_returns
      by (by apply collectBean_returns_assertable).
    apply list_elem_of_omap. eauto.
  - by rewrite Hd.
  - by rewrite Hk.
  - rewrite Hrule, Hsrc, Hfield in Hv. simpl in Hv. by injection Hv.
Qed.

Lemma numeric_field_reaches_metric_witness :
  index (default ∅ (sampleBeans !! 4%nat)) "NumLiveDataNodes" = VFloat 11%float
  ∧ ∃ x,
      x ∈ sent (collectBean (NewExporter "http://localhost:50070/jmx" 5000000000)
                  (default ∅ (sampleBeans !! 4%nat)))
      ∧ fqName (desc x) = "namenode_data_nodes_live"
      ∧ valType x = GaugeValue ∧ val x = 11%float.
Proof.
  assert (Hin : ("Hadoop:service=NameNode,name=FSNamesystemState",
                 "NumLiveDataNodes", "namenode_data_nodes_live", GaugeValue)
                ∈ exportedNumeric)
    by (apply list_elem_of_In; vm_compute; tauto).
  assert (Hok : assertable (default ∅ (sampleBeans !! 4%nat))).
  { apply (proj1 (Forall_singleton assertable _)).
    apply assertableb_sound. vm_compute. reflexivity. }
  split; [reflexivity|].
  exact (numeric_field_reaches_metric "http://localhost:50070/jmx" 5000000000
           (default ∅ (sampleBeans !! 4%nat)) _ _ _ _ _ Hin eq_refl eq_refl Hok).
Defined.

Lemma table_rule_or_boolean url timeout :
  Forall (λ row, Forall (λ m,
    rule m ≠ NumericPassthrough →
    fqName (target m (NewExporter url timeout)) ∈ booleanGaugeNames) row.2)
    mappingTable.
Proof.
  unfold mappingTable, numeric.
  repeat first [ apply List.Forall_nil | apply List.Forall_cons; simpl ];
    first [ by intros [] | intros _; apply list_elem_of_In; vm_compute; tauto ].
Qed.

(** X9. Nothing is made up: in every cycle each sample is one of the
    four truth-valued gauges or carries, under the metric name and value
    type the exported surface lists, the number that a bean of the
    document with the listed name holds in the listed field. *)
Theorem numeric_samples_come_from_fields (url : string) (timeout : Z)
    (got : getResult) :
  Forall (λ x,
      fqName (desc x) ∈ booleanGaugeNames
      ∨ ∃ envelope b n field,
          envelopeOf got = Some envelope ∧ b ∈ Beans envelope
          ∧ index b "name" = VString n
          ∧ index b field = VFloat (val x)
          ∧ (n, field, fqName (desc x), valType x) ∈ exportedNumeric)
    (sent (Collect (NewExporter url timeout) got)).
Proof.
  destruct (Collect_sent_split _ got (NewExporter_labelless url timeout))
    as (rest & -> & _ & Hrest).
  apply Forall_cons. split; [left; simpl; set_solver|].
  apply Forall_forall. intros x Hx.
  destruct (Hrest x Hx) as (envelope & b & m & Henv & Hb & Hm & Hs).
  apply sampleOf_Some in Hs as (Hd & Hk & _ & Hv).
  destruct (rule m) eqn:Hrule.
  - right. destruct (rowOf_table b m Hm) as (n & row & Hrow & Hin & Hn).
    exists envelope, b, n, (source m).
    split; [done|]. split; [done|]. split; [done|]. split.
    + simpl in Hv. destruct (index b (source m)); try done.
      by injection Hv as ->.
    + rewrite <- (surfaceOf_NewExporter url timeout).
      apply elem_of_surfaceOf. exists row, m. by rewrite Hd, Hk.
  - left. rewrite Hd.
    apply (table_forall _ b m (table_rule_or_boolean url timeout) Hm).
    by rewrite Hrule.
  - left. rewrite Hd.
    apply (table_forall _ b m (table_rule_or_boolean url timeout) Hm).
    by rewrite Hrule.
Qed.

(** ** No metric twice *)

Lemma row_descs_sublist e b ms :
  desc <$> omap (sampleOf e b) ms `sublist_of` (λ m, target m e) <$> ms.
Proof.
  induction ms as [|m ms IH]; [done|]. csimpl.
  destruct (sampleOf e b m) as [x|] eqn:Hx; csimpl.
  - apply sampleOf_Some in Hx as (-> & _). by apply sublist_skip.
  - by apply sublist_cons.
Qed.

Lemma beans_descs_sublist e beans :
  desc <$> (beans ≫= beanSamples e) `sublist_of` beanNames beans ≫= descsOfName e.
Proof.
  induction beans as [|b beans IH]; [done|].
  rewrite bind_cons, fmap_app.
  unfold beanNames at 1. csimpl. fold (beanNames beans).
  destruct (recognized b) eqn:Hrec.
  - apply recognized_name in Hrec as (n & _ & Hn). rewrite Hn; csimpl.
    apply sublist_app; [|exact IH].
    unfold beanSamples, descsOfName. rewrite (rowOf_named b n Hn).
    apply row_descs_sublist.
  - unfold beanSamples. rewrite (rowOf_unrecognized b Hrec).
    by destruct (index b "name").
Qed.

Lemma beanNames_recognized beans n :
  n ∈ beanNames beans → n ∈ recognizedNames.
Proof.
  unfold beanNames. rewrite list_elem_of_omap. intros (b & _ & Hb).
  destruct (index b "name") as [| | |s| |] eqn:Hn; try done.
  destruct (recognized b) eqn:Hrec; [|done]. injection Hb as ->.
  apply recognized_name in Hrec as (n' & Hin & Hn').
  rewrite Hn in Hn'. by injection Hn' as ->.
Qed.

Lemma submseteq_NoDup {A : Type} (l k : list A) : l ⊆+ k → NoDup k → NoDup l.
Proof.
  intros [k' Hk]%submseteq_Permutation Hdup. rewrite Hk in Hdup.
  by apply NoDup_app in Hdup as [? _].
Qed.

(** X10. When no recognized name is borne by two beans of the array,
    the cycle samples no metric twice, whichever names are present and
    whether or not it panics: the descriptors of the samples, counted
    with repetition, are among those [Describe] sends once each. *)
Theorem no_metric_sampled_twice (url : string) (timeout : Z)
    (got : getResult) (beans : list jmxBean) :
  envelopeOf got = Some {| Beans := beans |} →
  NoDup (beanNames beans) →
  desc <$> sent (Collect (NewExporter url timeout) got)
    ⊆+ sent (Describe (NewExporter url timeout))
  ∧ NoDup (fqName <$> (desc <$> sent (Collect (NewExporter url timeout) got))).
Proof.
  intros Henv Hdup.
  pose proof (NewExporter_labelless url timeout) as Hl.
  assert (Hsub : desc <$> sent (Collect (NewExporter url timeout) got)
                 ⊆+ sent (Describe (NewExporter url timeout))).
  { rewrite (Collect_translates _ got _ Hl Henv); simpl.
    rewrite <- (table_descs (NewExporter url timeout)).
    change (up (NewExporter url timeout)) with
      (desc (upSample (NewExporter url timeout) 1%float)).
    apply submseteq_skip.
    destruct (beans_sent_prefix (NewExporter url timeout) beans) as [k Hk].
    trans (desc <$> (beans ≫= beanSamples (NewExporter url timeout))).
    { rewrite Hk, fmap_app. apply sublist_submseteq, sublist_inserts_r. done. }
    trans (beanNames beans ≫= descsOfName (NewExporter url timeout)).
    { apply sublist_submseteq, beans_descs_sublist. }
    apply bind_submseteq, NoDup_submseteq; [done|].
    apply beanNames_recognized. }
  split; [exact Hsub|].
  apply (submseteq_NoDup _ (fqName <$> sent (Describe (NewExporter url timeout)))).
  - by apply fmap_submseteq.
  - apply (bool_decide_unpack _). vm_compute. exact I.
Qed.

Lemma no_metric_sampled_twice_witness :
  envelopeOf samplePartial
  = Some {| Beans := default [] (Beans <$> envelopeOf samplePartial) |}
  ∧ NoDup (beanNames (default [] (Beans <$> envelopeOf samplePartial)))
  ∧ desc <$> sent (Collect (NewExporter "http://localhost:50070/jmx" 5000000000)
                     samplePartial)
      ⊆+ sent (Describe (NewExporter "http://localhost:50070/jmx" 5000000000)).
Proof.
  assert (Henv : envelopeOf samplePartial
                 = Some {| Beans := default [] (Beans <$> envelopeOf samplePartial) |})
    by reflexivity.
  assert (Hdup : NoDup (beanNames (default [] (Beans <$> envelopeOf samplePartial))))
    by (apply (bool_decide_unpack _); vm_compute; exact I).
  split; [exact Henv|]. split; [exact Hdup|].
  apply (no_metric_sampled_twice "http://localhost:50070/jmx" 5000000000
           samplePartial _ Henv Hdup).
Defined.

(** ** Fields and members without a mapping *)

Lemma forRange_ext_in {T X : Type} (f g : X → run T unit) xs :
  (∀ x, x ∈ xs → f x = g x) → forRange xs f = forRange xs g.
Proof.
  induction xs as [|x xs IH]; [done|]. intros H. simpl.
  rewrite (H x) by set_solver. rewrite IH; [done|].
  intros y Hy. apply H. set_solver.
Qed.

Lemma collectBean_frame e b b' :
  index b' "name" = index b "name" →
  (∀ m, m ∈ rowOf b → index b' (source m) = index b (source m)) →
  collectBean e b' = collectBean e b.
Proof.
  intros Hname Hfields. rewrite !collectBean_table.
  assert (Hrow : rowOf b' = rowOf b) by (unfold rowOf; by rewrite Hname).
  rewrite Hrow. apply forRange_ext_in. intros m Hm.
  unfold emit, sampleOf. by rewrite (Hfields m Hm).
Qed.

(** X11. A bean is read only through its [name] and the fields of its
    row: setting or removing any other key, to whatever value, changes
    nothing of what the bean sends nor of how its translation ends. *)
Theorem unmapped_fields_are_ignored (url : string) (timeout : Z)
    (b : jmxBean) (k : string) (v : value) :
  k ≠ "name" →
  k ∉ source <$> rowOf b →
  collectBean (NewExporter url timeout) (<[k := v]> b)
  = collectBean (NewExporter url timeout) b
  ∧ collectBean (NewExporter url timeout) (delete k b)
    = collectBean (NewExporter url timeout) b.
Proof.
  intros Hname Hrow.
  assert (Hother : ∀ m, m ∈ rowOf b → k ≠ source m).
  { intros m Hm ->. apply Hrow. by apply list_elem_of_fmap_2. }
  split; apply collectBean_frame; unfold index.
  - by rewrite lookup_insert_ne.
  - intros m Hm. by rewrite lookup_insert_ne by (by apply Hother).
  - by rewrite lookup_delete_ne.
  - intros m Hm. by rewrite lookup_delete_ne by (by apply Hother).
Qed.

Lemma unmapped_fields_are_ignored_witness :
  collectBean (NewExporter "http://localhost:50070/jmx" 5000000000)
    (<["StartTime" := VFloat 1%float]> (default ∅ (unmarshalBean sampleRuntime)))
  = collectBean (NewExporter "http://localhost:50070/jmx" 5000000000)
      (default ∅ (unmarshalBean sampleRuntime)).
Proof.
  apply (unmapped_fields_are_ignored "http://localhost:50070/jmx" 5000000000
           (default ∅ (unmarshalBean sampleRuntime)) "StartTime" (VFloat 1%float)).
  - discriminate.
  - intros Hin%list_elem_of_In. vm_compute in Hin.
    destruct Hin as [Hin|[]]. discriminate Hin.
Defined.




(** ** The order of the beans *)

(** X13. When no bean of the array faults, the order of the beans
    decides the order of the samples and nothing else: a document with
    the same beans in another order gives the same samples in another
    order, and its cycle returns as well. *)
Theorem bean_order_only_reorders (url : string) (timeout : Z)
    (got got' : getResult) (beans beans' : list jmxBean) :
  envelopeOf got = Some {| Beans := beans |} →
  envelopeOf got' = Some {| Beans := beans' |} →
  beans' ≡ₚ beans →
  Forall assertable beans →
  returns (Collect (NewExporter url timeout) got)
  ∧ returns (Collect (NewExporter url timeout) got')
  ∧ sent (Collect (NewExporter url timeout) got')
    ≡ₚ sent (Collect (NewExporter url timeout) got).
Proof.
  intros Henv Henv' Hperm Hok.
  pose proof (NewExporter_labelless url timeout) as Hl.
  assert (Hok' : Forall assertable beans') by (by rewrite Hperm).
  assert (Hret : ∀ l, Forall assertable l →
            returns (forRange l (collectBean (NewExporter url timeout)))).
  { intros l Hall. apply forRange_returns. eapply Forall_impl; [exact Hall|].
    intros b. by apply collectBean_returns_assertable. }
  rewrite (Collect_translates _ got _ Hl Henv),
          (Collect_translates _ got' _ Hl Henv'); simpl.
  split; [|split].
  - apply returns_unit, returns_unit, (Hret beans Hok).
  - apply returns_unit, returns_unit, (Hret beans' Hok').
  - rewrite !beans_sent_returns by auto. by rewrite Hperm.
Qed.

Lemma bean_order_only_reorders_witness :
  envelopeOf sampleGot = Some {| Beans := sampleBeans |}
  ∧ envelopeOf sampleReversed = Some {| Beans := reverse sampleBeans |}
  ∧ sent (Collect (NewExporter "http://localhost:50070/jmx" 5000000000) sampleReversed)
    ≡ₚ sent (Collect (NewExporter "http://localhost:50070/jmx" 5000000000) sampleGot).
Proof.
  assert (Henv : envelopeOf sampleGot = Some {| Beans := sampleBeans |})
    by reflexivity.
  assert (Henv' : envelopeOf sampleReversed = Some {| Beans := reverse sampleBeans |})
    by (vm_compute; reflexivity).
  assert (Hok : Forall assertable sampleBeans)
    by (apply assertableb_sound; vm_compute; reflexivity).
  split; [exact Henv|]. split; [exact Henv'|].
  apply (bean_order_only_reorders "http://localhost:50070/jmx" 5000000000
           sampleGot sampleReversed sampleBeans (reverse sampleBeans)
           Henv Henv' (reverse_Permutation sampleBeans) Hok).
Defined.

(** ** The PID file *)

Lemma trimRunes_spaces two three ws s :
  Forall asciiSpace ws → trimRunes two three (ws ++ s) = trimRunes two three s.
Proof.
  induction 1 as [|c ws Hc _ IH]; [done|]. simpl.
  unfold asciiSpace in Hc. by rewrite Hc.
Qed.

(** A byte below 128 that is no space stops the trimming, from either
    side. *)
Lemma trimLeft_plain c r :
  (N_of_ascii c < 128)%N → space1 (N_of_ascii c) = false →
  trimLeft (c :: r) = c :: r.
Proof.
  intros Hc Hs. unfold trimLeft; simpl. rewrite Hs.
  destruct r as [|b r2]; [done|].
  assert (H2 : space2 (N_of_ascii c) (N_of_ascii b) = false).
  { unfold space2. replace (N_of_ascii c =? 194)%N with false; [done|].
    symmetry. apply N.eqb_neq. lia. }
  rewrite H2. destruct r2 as [|d r3]; [done|].
  assert (H3 : space3 (N_of_ascii c) (N_of_ascii b) (N_of_ascii d) = false).
  { unfold space3.
    replace (N_of_ascii c =? 225)%N with false by (symmetry; apply N.eqb_neq; lia).
    replace (N_of_ascii c =? 226)%N with false by (symmetry; apply N.eqb_neq; lia).
    replace (N_of_ascii c =? 227)%N with false by (symmetry; apply N.eqb_neq; lia).
    done. }
  by rewrite H3.
Qed.

Lemma trimRight_plain c r :
  (N_of_ascii c < 128)%N → space1 (N_of_ascii c) = false →
  trimRunes (λ a b, space2 b a) (λ a b d, space3 d b a) (c :: r) = c :: r.
Proof.
  intros Hc Hs. simpl. rewrite Hs.
  destruct r as [|b r2]; [done|].
  assert (H2 : space2 (N_of_ascii b) (N_of_ascii c) = false).
  { unfold space2.
    replace (N_of_ascii c =? 133)%N with false by (symmetry; apply N.eqb_neq; lia).
    replace (N_of_ascii c =? 160)%N with false by (symmetry; apply N.eqb_neq; lia).
    apply andb_false_r. }
  rewrite H2. destruct r2 as [|d r3]; [done|].
  assert (H3 : space3 (N_of_ascii d) (N_of_ascii b) (N_of_ascii c) = false).
  { unfold space3.
    replace (N_of_ascii c =? 128)%N with false by (symmetry; apply N.eqb_neq; lia).
    replace (N_of_ascii c =? 159)%N with false by (symmetry; apply N.eqb_neq; lia).
    replace (N_of_ascii c =? 168)%N with false by (symmetry; apply N.eqb_neq; lia).
    replace (N_of_ascii c =? 169)%N with false by (symmetry; apply N.eqb_neq; lia).
    replace (N_of_ascii c =? 175)%N with false by (symmetry; apply N.eqb_neq; lia).
    replace (128 <=? N_of_ascii c)%N with false by (symmetry; apply N.leb_gt; lia).
    simpl. by rewrite !andb_false_r. }
  by rewrite H3.
Qed.

(** Spaces around a text that begins and ends with plain bytes are
    what [TrimSpace] removes. *)
Lemma TrimSpace_around ws1 ws2 c r body l :
  Forall asciiSpace ws1 → Forall asciiSpace ws2 →
  c :: r = body ++ [l] →
  (N_of_ascii c < 128)%N → space1 (N_of_ascii c) = false →
  (N_of_ascii l < 128)%N → space1 (N_of_ascii l) = false →
  TrimSpace (ws1 ++ (c :: r) ++ ws2) = c :: r.
Proof.
  intros H1 H2 Hsnoc Hc Hcs Hl Hls. unfold TrimSpace.
  assert (Hleft : trimLeft (ws1 ++ (c :: r) ++ ws2) = (c :: r) ++ ws2).
  { unfold trimLeft. rewrite trimRunes_spaces by done.
    by apply trimLeft_plain. }
  rewrite Hleft. unfold trimRight.
  rewrite reverse_app, trimRunes_spaces by (by apply Forall_reverse).
  rewrite Hsnoc, reverse_snoc, trimRight_plain by done.
  by rewrite <- reverse_snoc, reverse_involutive.
Qed.

Lemma digit_plain c :
  is_Some (digit c) →
  (N_of_ascii c < 128)%N ∧ space1 (N_of_ascii c) = false
  ∧ Ascii.eqb c "-" = false ∧ Ascii.eqb c "+" = false.
Proof.
  unfold digit. intros [d Hd].
  destruct (48 <=? N_of_ascii c)%N eqn:Hlo; simpl in Hd; [|done].
  destruct (N_of_ascii c <=? 57)%N eqn:Hhi; [|done].
  apply N.leb_le in Hlo, Hhi.
  split; [lia|]. split; [|split].
  - unfold space1.
    replace (N_of_ascii c <=? 13)%N with false by (symmetry; apply N.leb_gt; lia).
    replace (N_of_ascii c =? 32)%N with false by (symmetry; apply N.eqb_neq; lia).
    by rewrite andb_false_r.
  - destruct (Ascii.eqb_spec c "-") as [->|]; [|done]. vm_compute in Hlo. done.
  - destruct (Ascii.eqb_spec c "+") as [->|]; [|done]. vm_compute in Hlo. done.
Qed.

Lemma digit_digitChar (d : Z) : 0 ≤ d < 10 → digit (digitChar d) = Some d.
Proof.
  intros Hd.
  assert (H : d = 0 ∨ d = 1 ∨ d = 2 ∨ d = 3 ∨ d = 4 ∨ d = 5 ∨ d = 6
              ∨ d = 7 ∨ d = 8 ∨ d = 9) by lia.
  repeat (destruct H as [->|H]; [reflexivity|]). by subst d.
Qed.

Lemma digitsValue_app s1 s2 acc :
  digitsValue (s1 ++ s2) acc = digitsValue s1 acc ≫= digitsValue s2.
Proof.
  revert acc. induction s1 as [|a s1 IH]; intros acc; [done|]. simpl.
  destruct (digit a); simpl; [apply IH|done].
Qed.

Lemma decimalFuel_value (fuel : nat) (n : Z) :
  (0 ≤ n)%Z → (Z.to_nat n < fuel)%nat →
  digitsValue (decimalFuel fuel n) 0 = Some n.
Proof.
  revert n. induction fuel as [|fuel IH]; intros n Hn Hfuel; [lia|]. simpl.
  destruct (Z.ltb_spec n 10) as [Hlt|Hge].
  - simpl. rewrite digit_digitChar by lia. simpl. f_equal; lia.
  - rewrite digitsValue_app, IH; simpl.
    + rewrite digit_digitChar by (apply Z.mod_pos_bound; lia). simpl.
      f_equal. pose proof (Z.div_mod n 10). lia.
    + apply Z.div_pos; lia.
    + assert (n / 10 < n) by (apply Z.div_lt; lia). lia.
Qed.

Lemma decimalFuel_digits (fuel : nat) (n : Z) :
  (0 ≤ n)%Z → Forall (λ c, is_Some (digit c)) (decimalFuel fuel n).
Proof.
  revert n. induction fuel as [|fuel IH]; intros n Hn; [constructor|]. simpl.
  destruct (Z.ltb_spec n 10) as [Hlt|Hge].
  - repeat constructor. rewrite digit_digitChar by lia. eauto.
  - apply Forall_app. split; [apply IH, Z.div_pos; lia|].
    repeat constructor.
    rewrite digit_digitChar by (apply Z.mod_pos_bound; lia). eauto.
Qed.

(** The decimal notation of a natural number: digits, at least one,
    that read back as the number. *)
Lemma decimal_shape (n : Z) :
  (0 ≤ n)%Z →
  ∃ c r body l,
    decimal n = c :: r ∧ c :: r = body ++ [l]
    ∧ is_Some (digit c) ∧ is_Some (digit l)
    ∧ digitsValue (decimal n) 0 = Some n.
Proof.
  intros Hn. unfold decimal.
  pose proof (decimalFuel_digits (S (Z.to_nat n)) n Hn) as Hall.
  pose proof (decimalFuel_value (S (Z.to_nat n)) n Hn ltac:(lia)) as Hval.
  destruct (decimalFuel (S (Z.to_nat n)) n) as [|c r] eqn:Hd.
  { simpl in Hd. destruct (n <? 10)%Z; [done|]. by destruct (decimalFuel _ _). }
  destruct (exists_last (l := c :: r) ltac:(done)) as (body & l & Hsnoc).
  exists c, r, body, l. split; [done|]. split; [done|].
  split; [by inversion Hall|]. split; [|done].
  rewrite Hsnoc in Hall. apply Forall_app in Hall as [_ Hl]. by inversion Hl.
Qed.

Lemma Atoi_decimal (intSize n : Z) :
  (0 ≤ n)%Z →
  Atoi intSize (decimal n)
  = if (n <? 2 ^ (intSize - 1))%Z then Some n else None.
Proof.
  intros Hn.
  destruct (decimal_shape n Hn) as (c & r & _ & _ & Hd & _ & Hc & _ & Hval).
  destruct (digit_plain c Hc) as (_ & _ & Hminus & Hplus).
  unfold Atoi. rewrite Hd in *. rewrite Hminus, Hplus, Hval; simpl.
  assert (H0 : (0 ≤ 2 ^ (intSize - 1))%Z) by (apply Z.pow_nonneg; lia).
  replace (- 2 ^ (intSize - 1) <=? n)%Z with true
    by (symmetry; apply Z.leb_le; lia).
  done.
Qed.

Lemma Atoi_minus_decimal (intSize n : Z) :
  (0 ≤ n)%Z → (0 < 2 ^ (intSize - 1))%Z →
  Atoi intSize ("-"%char :: decimal n)
  = if (n <=? 2 ^ (intSize - 1))%Z then Some (- n)%Z else None.
Proof.
  intros Hn H0.
  destruct (decimal_shape n Hn) as (c & r & _ & _ & Hd & _ & _ & _ & Hval).
  unfold Atoi. simpl. rewrite Hd in *. rewrite Hval; simpl.
  replace (- n <? 2 ^ (intSize - 1))%Z with true
    by (symmetry; apply Z.ltb_lt; lia).
  rewrite andb_true_r.
  destruct (Z.leb_spec n (2 ^ (intSize - 1)));
    destruct (Z.leb_spec (- 2 ^ (intSize - 1)) (- n)); (done || lia).
Qed.

Lemma TrimSpace_decimal ws1 ws2 (n : Z) :
  (0 ≤ n)%Z → Forall asciiSpace ws1 → Forall asciiSpace ws2 →
  TrimSpace (ws1 ++ decimal n ++ ws2) = decimal n
  ∧ TrimSpace (ws1 ++ ("-"%char :: decimal n) ++ ws2) = "-"%char :: decimal n.
Proof.
  intros Hn H1 H2.
  destruct (decimal_shape n Hn) as (c & r & body & l & Hd & Hsnoc & Hc & Hl & _).
  destruct (digit_plain c Hc) as (Hc1 & Hc2 & _).
  destruct (digit_plain l Hl) as (Hl1 & Hl2 & _).
  rewrite Hd. split.
  - by apply (TrimSpace_around ws1 ws2 c r body l).
  - apply (TrimSpace_around ws1 ws2 "-"%char (c :: r) ("-"%char :: body) l);
      try done.
    simpl. by rewrite Hsnoc.
Qed.

(** X14. A PID file that holds the decimal notation of a number within
    the range of [int], a negative one included, with any ASCII white
    space before and after it, gives that number and no error. *)
Theorem pid_file_round_trip (intSize : Z) (path : string) (v : Z)
    (ws1 ws2 : list ascii) :
  (- 2 ^ (intSize - 1) ≤ v < 2 ^ (intSize - 1))%Z →
  Forall asciiSpace ws1 →
  Forall asciiSpace ws2 →
  pidFn intSize path (inl (ws1 ++ signedDecimal v ++ ws2)) = (v, None).
Proof.
  intros Hv H1 H2. unfold pidFn, signedDecimal.
  destruct (Z.ltb_spec v 0) as [Hneg|Hpos].
  - destruct (TrimSpace_decimal ws1 ws2 (- v) ltac:(lia) H1 H2) as [_ ->].
    rewrite Atoi_minus_decimal by lia.
    destruct (Z.leb_spec (- v) (2 ^ (intSize - 1))); [|lia].
    by rewrite Z.opp_involutive.
  - destruct (TrimSpace_decimal ws1 ws2 v Hpos H1 H2) as [-> _].
    rewrite Atoi_decimal by done.
    by destruct (Z.ltb_spec v (2 ^ (intSize - 1))); [|lia].
Qed.

Lemma pid_file_round_trip_witness :
  pidFn 64 "/var/run/hadoop/namenode.pid" (inl (list_ascii_of_string "4711
"))
  = (4711%Z, None).
Proof.
  apply (pid_file_round_trip 64 "/var/run/hadoop/namenode.pid" 4711 []
           (list_ascii_of_string "
")).
  - vm_compute. split; [discriminate | reflexivity].
  - constructor.
  - repeat constructor.
Defined.

(** X15. A PID file that is empty or holds only ASCII white space is
    reported as unparsable, with PID 0. *)
Theorem pid_file_blank (intSize : Z) (path : string) (ws : list ascii) :
  Forall asciiSpace ws →
  pidFn intSize path (inl ws) = (0%Z, Some (CantParse path)).
Proof.
  intros Hws. unfold pidFn, TrimSpace, trimLeft.
  rewrite <- (app_nil_r ws), trimRunes_spaces by done. reflexivity.
Qed.

Lemma pid_file_blank_witness :
  pidFn 64 "/var/run/hadoop/namenode.pid" (inl (list_ascii_of_string "  
"))
  = (0%Z, Some (CantParse "/var/run/hadoop/namenode.pid")).
Proof.
  apply (pid_file_blank 64 "/var/run/hadoop/namenode.pid").
  repeat constructor.
Defined.


